(** * ipdisp: frame distribution subsystem of the IP display driver

    A shallow embedding of [kernel/ipdisp.h], [kernel/ipdisp_network.c],
    [kernel/ipdisp_encoder.c] and the frame copy of [kernel/ipdisp_drm.c].

    - C integers are [Z] with their wrap-around written out
      ([u32], [size_t] as 64-bit);
    - memory images are lists of bytes, a byte being a [Z] in [0, 256);
    - the client list [idev->clients] is a [list ipdisp_client] in list order
      ([list_add_tail] appends);
    - kernel services whose result the driver cannot predict
      ([kernel_accept], [kernel_getpeername], [kzalloc], [kernel_sendmsg],
      [ktime_get_ns]) are inputs; their effects ([sock_release],
      [kernel_sendmsg], [schedule_work], [pr_warn]) are recorded in the
      state. *)

From Stdlib Require Import ZArith Lia Bool.
From stdpp Require Import base list.

Local Open Scope Z_scope.

(** ** Constants of [ipdisp.h] *)

Definition IPDISP_MAX_CLIENTS : Z := 4.
Definition IPDISP_MAGIC : Z := 0x49504453.
Definition IPDISP_VERSION : Z := 1.
Definition IPDISP_HEADER_SIZE : Z := 32.
Definition IPDISP_FORMAT_RGBA32 : Z := 0.
Definition IPDISP_FORMAT_RGB24 : Z := 1.
Definition IPDISP_FORMAT_H264 : Z := 2.
Definition IPDISP_FORMAT_H265 : Z := 3.

Definition EIO : Z := 5.

(** ** Machine integers and their memory images *)

Definition u32 (x : Z) : Z := x mod 2 ^ 32.
Definition u64 (x : Z) : Z := x mod 2 ^ 64.
Definition is_u32 (x : Z) : Prop := 0 <= x < 2 ^ 32.
Definition is_u64 (x : Z) : Prop := 0 <= x < 2 ^ 64.
Definition is_byte (b : Z) : Prop := 0 <= b < 256.

(** The [n] low-order bytes of [x], least significant first. *)
Fixpoint le_bytes (n : nat) (x : Z) : list Z :=
  match n with
  | O => []
  | S n' => x mod 256 :: le_bytes n' (x / 256)
  end.

(** The same bytes, most significant first: network order. *)
Definition be_bytes (n : nat) (x : Z) : list Z := rev (le_bytes n x).

Fixpoint le_value (bs : list Z) : Z :=
  match bs with
  | [] => 0
  | b :: rest => b + 256 * le_value rest
  end.

Definition be_value (bs : list Z) : Z := le_value (rev bs).

(** Byte order of the CPU the module runs on. *)
Inductive byte_order := LittleEndian | BigEndian.

(** [swab32] / [swab64]: reverse the bytes of an [n]-byte integer. *)
Definition swab (n : nat) (x : Z) : Z := le_value (rev (le_bytes n x)).

(** [cpu_to_be32(x)]: the argument is converted to [u32] first. *)
Definition cpu_to_be32 (cpu : byte_order) (x : Z) : Z :=
  match cpu with
  | LittleEndian => swab 4 (u32 x)
  | BigEndian => u32 x
  end.

Definition cpu_to_be64 (cpu : byte_order) (x : Z) : Z :=
  match cpu with
  | LittleEndian => swab 8 (u64 x)
  | BigEndian => u64 x
  end.

(** Memory image of an [n]-byte integer field holding [x]. *)
Definition store (cpu : byte_order) (n : nat) (x : Z) : list Z :=
  match cpu with
  | LittleEndian => le_bytes n x
  | BigEndian => be_bytes n x
  end.

(** ** [struct ipdisp_packet_header] *)

Module PacketHeader.

(** The fields hold what the C fields hold. *)
Record ipdisp_packet_header := {
  magic : Z;      (* u32 *)
  version : Z;    (* u32 *)
  width : Z;      (* u32 *)
  height : Z;     (* u32 *)
  format : Z;     (* u32 *)
  timestamp : Z;  (* u64 *)
  size : Z;       (* u32 *)
  reserved : Z    (* u32 *)
}.

(** [sizeof(struct ipdisp_packet_header)]: the struct is [__packed], so
    the size is the sum of the field sizes. *)
Definition sizeof : Z := 4 + 4 + 4 + 4 + 4 + 8 + 4 + 4.

(** The bytes of the struct in memory, which is what [kernel_sendmsg]
    puts on the wire. *)
Definition image (cpu : byte_order) (h : ipdisp_packet_header) : list Z :=
  store cpu 4 (magic h) ++ store cpu 4 (version h) ++
  store cpu 4 (width h) ++ store cpu 4 (height h) ++
  store cpu 4 (format h) ++ store cpu 8 (timestamp h) ++
  store cpu 4 (size h) ++ store cpu 4 (reserved h).

(** Header prepared by [ipdisp_network_send_display_info]. *)
Definition display_info (cpu : byte_order) (dev_width dev_height now : Z)
  : ipdisp_packet_header :=
  {| magic := cpu_to_be32 cpu IPDISP_MAGIC;
     version := cpu_to_be32 cpu IPDISP_VERSION;
     width := cpu_to_be32 cpu dev_width;
     height := cpu_to_be32 cpu dev_height;
     format := cpu_to_be32 cpu IPDISP_FORMAT_RGBA32;
     timestamp := cpu_to_be64 cpu now;
     size := 0;
     reserved := 0 |}.

(** Header prepared by [ipdisp_network_send_frame]. *)
Definition frame (cpu : byte_order) (dev_width dev_height now sz : Z)
  : ipdisp_packet_header :=
  {| magic := cpu_to_be32 cpu IPDISP_MAGIC;
     version := cpu_to_be32 cpu IPDISP_VERSION;
     width := cpu_to_be32 cpu dev_width;
     height := cpu_to_be32 cpu dev_height;
     format := cpu_to_be32 cpu IPDISP_FORMAT_RGBA32;
     timestamp := cpu_to_be64 cpu now;
     size := cpu_to_be32 cpu sz;
     reserved := 0 |}.

(** The conversion both senders apply, field by field, to a header given
    by its values in host order. *)
Definition to_wire (cpu : byte_order) (h : ipdisp_packet_header)
  : ipdisp_packet_header :=
  {| magic := cpu_to_be32 cpu (magic h);
     version := cpu_to_be32 cpu (version h);
     width := cpu_to_be32 cpu (width h);
     height := cpu_to_be32 cpu (height h);
     format := cpu_to_be32 cpu (format h);
     timestamp := cpu_to_be64 cpu (timestamp h);
     size := cpu_to_be32 cpu (size h);
     reserved := cpu_to_be32 cpu (reserved h) |}.

Definition encode (cpu : byte_order) (h : ipdisp_packet_header) : list Z :=
  image cpu (to_wire cpu h).

(** The header values a greeting and a frame carry, in host order. *)
Definition greeting_fields (dev_width dev_height now : Z) :=
  {| magic := IPDISP_MAGIC; version := IPDISP_VERSION;
     width := dev_width; height := dev_height;
     format := IPDISP_FORMAT_RGBA32; timestamp := now;
     size := 0; reserved := 0 |}.

Definition frame_fields (dev_width dev_height now sz : Z) :=
  {| magic := IPDISP_MAGIC; version := IPDISP_VERSION;
     width := dev_width; height := dev_height;
     format := IPDISP_FORMAT_RGBA32; timestamp := now;
     size := sz; reserved := 0 |}.

(** Every field within the range of its C type. *)
Definition wf (h : ipdisp_packet_header) : Prop :=
  is_u32 (magic h) /\ is_u32 (version h) /\ is_u32 (width h) /\
  is_u32 (height h) /\ is_u32 (format h) /\ is_u64 (timestamp h) /\
  is_u32 (size h) /\ is_u32 (reserved h).

Inductive error := ProtocolError.

(** The big-endian integer held by the [len] bytes at offset [off]. *)
Definition field (off len : nat) (bs : list Z) : Z :=
  be_value (take len (drop off bs)).

(** Modelled from the spec: the decoder of the packet header, which the
    driver does not contain (its clients are consumers only).  It reads
    the fields of the wire table of section 6 of the specification at
    their offsets (0, 4, 8, 12, 16, 20, 28 and 32, the last one four bytes
    wide), each big-endian, and fails with [ProtocolError] on a buffer too
    short to hold them. *)
Definition decode (bs : list Z) : error + ipdisp_packet_header :=
  if (length bs <? 36)%nat then inl ProtocolError
  else inr {| magic := field 0 4 bs;
              version := field 4 4 bs;
              width := field 8 4 bs;
              height := field 12 4 bs;
              format := field 16 4 bs;
              timestamp := field 20 8 bs;
              size := field 28 4 bs;
              reserved := field 32 4 bs |}.

End PacketHeader.

(** ** Clients, device and kernel state *)

(** A [struct socket *] returned by [kernel_accept]; never [NULL]. *)
Definition socket := nat.

Record sockaddr_in := { sin_addr : Z; sin_port : Z }.

(** [struct ipdisp_client].  The [list] member is the position in the
    client list and the [lock] mutex carries no data. *)
Record ipdisp_client := {
  sock : socket;
  addr : sockaddr_in;
  active : bool
}.

(** [client->active = false]. *)
Definition set_inactive (c : ipdisp_client) : ipdisp_client :=
  {| sock := sock c; addr := addr c; active := false |}.

(** The part of [struct ipdisp_device] the subsystem uses. *)
Record ipdisp_device := {
  width : Z;                      (* u32 *)
  height : Z;                     (* u32 *)
  framebuffer : option (list Z);  (* NULL, or the bytes it points to *)
  fb_size : Z;                    (* size_t *)
  listen_sock : option socket;
  clients : list ipdisp_client;
  stream_wq : bool;               (* non-NULL *)
  streaming_enabled : bool
}.

(** One call of [kernel_sendmsg]: destination, the bytes of the iovec, the
    requested length and the value returned. *)
Record sendmsg_call := {
  call_sock : socket;
  call_msg : list Z;
  call_len : Z;
  call_ret : Z
}.

(** Lines written to the kernel log ([ipdisp_debug] compiles to nothing). *)
Inductive kmsg :=
| InfoNewClient (a : sockaddr_in)
| WarnPeerName (ret : Z)
| WarnMaxClients
| ErrAllocClient
| WarnDisplayInfo (ret : Z)
| WarnNoSourceAddress
| WarnUnsupportedFormat (fourcc : Z)
| InfoNetworkCleanedUp.

(** What the driver has done to the kernel so far. *)
Record kernel := {
  released : list socket;       (* sock_release *)
  wire : list sendmsg_call;     (* kernel_sendmsg *)
  stream_work_queued : nat;     (* schedule_work / queue_work of stream_work *)
  klog : list kmsg
}.

Record state := { idev : ipdisp_device; kern : kernel }.

Definition with_clients (cl : list ipdisp_client) (s : state) : state :=
  {| idev := {| width := width (idev s); height := height (idev s);
                framebuffer := framebuffer (idev s);
                fb_size := fb_size (idev s);
                listen_sock := listen_sock (idev s);
                clients := cl;
                stream_wq := stream_wq (idev s);
                streaming_enabled := streaming_enabled (idev s) |};
     kern := kern s |}.

Definition with_framebuffer (fb : option (list Z)) (s : state) : state :=
  {| idev := {| width := width (idev s); height := height (idev s);
                framebuffer := fb;
                fb_size := fb_size (idev s);
                listen_sock := listen_sock (idev s);
                clients := clients (idev s);
                stream_wq := stream_wq (idev s);
                streaming_enabled := streaming_enabled (idev s) |};
     kern := kern s |}.

Definition with_listen_sock (l : option socket) (s : state) : state :=
  {| idev := {| width := width (idev s); height := height (idev s);
                framebuffer := framebuffer (idev s);
                fb_size := fb_size (idev s);
                listen_sock := l;
                clients := clients (idev s);
                stream_wq := stream_wq (idev s);
                streaming_enabled := streaming_enabled (idev s) |};
     kern := kern s |}.

Definition with_streaming_enabled (b : bool) (s : state) : state :=
  {| idev := {| width := width (idev s); height := height (idev s);
                framebuffer := framebuffer (idev s);
                fb_size := fb_size (idev s);
                listen_sock := listen_sock (idev s);
                clients := clients (idev s);
                stream_wq := stream_wq (idev s);
                streaming_enabled := b |};
     kern := kern s |}.

Definition sock_release (sk : socket) (s : state) : state :=
  {| idev := idev s;
     kern := {| released := released (kern s) ++ [sk];
                wire := wire (kern s);
                stream_work_queued := stream_work_queued (kern s);
                klog := klog (kern s) |} |}.

Definition sock_release_all (sks : list socket) (s : state) : state :=
  {| idev := idev s;
     kern := {| released := released (kern s) ++ sks;
                wire := wire (kern s);
                stream_work_queued := stream_work_queued (kern s);
                klog := klog (kern s) |} |}.

Definition kernel_sendmsg (calls : list sendmsg_call) (s : state) : state :=
  {| idev := idev s;
     kern := {| released := released (kern s);
                wire := wire (kern s) ++ calls;
                stream_work_queued := stream_work_queued (kern s);
                klog := klog (kern s) |} |}.

(** [schedule_work(&idev->stream_work)] and
    [queue_work(idev->stream_wq, &idev->stream_work)]: one more request to
    run the stream work. *)
Definition schedule_work (s : state) : state :=
  {| idev := idev s;
     kern := {| released := released (kern s);
                wire := wire (kern s);
                stream_work_queued := S (stream_work_queued (kern s));
                klog := klog (kern s) |} |}.

Definition printk (m : kmsg) (s : state) : state :=
  {| idev := idev s;
     kern := {| released := released (kern s);
                wire := wire (kern s);
                stream_work_queued := stream_work_queued (kern s);
                klog := klog (kern s) ++ [m] |} |}.

(** ** [ipdisp_network.c] *)

(** The counting loop of [ipdisp_network_thread]. *)
Fixpoint client_count (cl : list ipdisp_client) : Z :=
  match cl with
  | [] => 0
  | c :: rest => (if active c then 1 else 0) + client_count rest
  end.

(** The region of [ipdisp_network_thread] that runs under
    [idev->clients_lock]: count, reject or allocate and [list_add_tail].
    [kzalloc_ok] says whether the allocation succeeds. *)
Definition register_client (sk : socket) (a : sockaddr_in) (kzalloc_ok : bool)
    (s : state) : option ipdisp_client * state :=
  if client_count (clients (idev s)) >=? IPDISP_MAX_CLIENTS then
    (None, sock_release sk (printk WarnMaxClients s))
  else if negb kzalloc_ok then
    (None, sock_release sk (printk ErrAllocClient s))
  else
    let client := {| sock := sk; addr := a; active := true |} in
    (Some client, with_clients (clients (idev s) ++ [client]) s).

(** [ipdisp_network_send_display_info]; [ret] is what [kernel_sendmsg]
    returns.  The result is the return value and the new state. *)
Definition ipdisp_network_send_display_info (cpu : byte_order) (now ret : Z)
    (client : ipdisp_client) (s : state) : Z * state :=
  let header :=
    PacketHeader.display_info cpu (width (idev s)) (height (idev s)) now in
  let s1 := kernel_sendmsg
              [{| call_sock := sock client;
                  call_msg := PacketHeader.image cpu header;
                  call_len := PacketHeader.sizeof;
                  call_ret := ret |}] s in
  if negb (ret =? PacketHeader.sizeof) then
    (if ret <? 0 then ret else - EIO, printk (WarnDisplayInfo ret) s1)
  else (0, s1).

(** The loop of [ipdisp_network_cleanup_clients]: the entries kept and the
    sockets released, both in list order. *)
Fixpoint cleanup_loop (cl : list ipdisp_client)
    : list ipdisp_client * list socket :=
  match cl with
  | [] => ([], [])
  | c :: rest =>
      let '(kept, closed) := cleanup_loop rest in
      if negb (active c) then (kept, sock c :: closed)
      else (c :: kept, closed)
  end.

Definition ipdisp_network_cleanup_clients (s : state) : state :=
  let '(kept, closed) := cleanup_loop (clients (idev s)) in
  sock_release_all closed (with_clients kept s).

(** The loop of [ipdisp_network_send_frame] from the entry at position [i]
    on.  [sendmsg_ret j] is what [kernel_sendmsg] returns for the entry at
    position [j] of the list.  The result is the list after the loop, the
    calls made and [clients_sent].  [ret], an [int], is compared with a
    [size_t]; it is not negative there, so its conversion keeps the value. *)
Fixpoint send_frame_loop (sendmsg_ret : nat -> Z) (msg : list Z) (total : Z)
    (i : nat) (cl : list ipdisp_client)
    : list ipdisp_client * list sendmsg_call * Z :=
  match cl with
  | [] => ([], [], 0)
  | c :: rest =>
      let '(rest', calls, clients_sent) :=
        send_frame_loop sendmsg_ret msg total (S i) rest in
      if negb (active c) then (c :: rest', calls, clients_sent)
      else
        let ret := sendmsg_ret i in
        let call := {| call_sock := sock c; call_msg := msg;
                       call_len := total; call_ret := ret |} in
        if ret <? 0 then (set_inactive c :: rest', call :: calls, clients_sent)
        else if negb (ret =? total) then
          (set_inactive c :: rest', call :: calls, clients_sent)
        else (c :: rest', call :: calls, clients_sent + 1)
  end.

(** [sizeof(header) + size], in [size_t]. *)
Definition frame_total (size : Z) : Z := u64 (PacketHeader.sizeof + size).

(** The two-element iovec: the header image, then [size] bytes of [data]. *)
Definition frame_message (cpu : byte_order) (d : ipdisp_device) (now : Z)
    (data : list Z) (size : Z) : list Z :=
  PacketHeader.image cpu (PacketHeader.frame cpu (width d) (height d) now size)
    ++ take (Z.to_nat size) data.

(** [ipdisp_network_send_frame]: return value and new state. *)
Definition ipdisp_network_send_frame (cpu : byte_order) (now : Z)
    (sendmsg_ret : nat -> Z) (data : list Z) (size : Z) (s : state)
    : Z * state :=
  match clients (idev s) with
  | [] => (0, s)
  | _ :: _ =>
      let '(cl', calls, clients_sent) :=
        send_frame_loop sendmsg_ret
          (frame_message cpu (idev s) now data size) (frame_total size)
          0 (clients (idev s)) in
      let s1 := kernel_sendmsg calls (with_clients cl' s) in
      (clients_sent, if clients_sent =? 0 then schedule_work s1 else s1)
  end.

(** [ipdisp_network_cleanup]: after the thread is stopped, the listening
    socket and every client are released. *)
Definition ipdisp_network_cleanup (s : state) : state :=
  let s1 := match listen_sock (idev s) with
            | Some l => with_listen_sock None (sock_release l s)
            | None => s
            end in
  printk InfoNetworkCleanedUp
    (sock_release_all (map sock (clients (idev s1))) (with_clients [] s1)).

(** What the kernel hands to one iteration of the accept loop. *)
Inductive accept_result := AcceptError (ret : Z) | Accepted (sk : socket).
Inductive peername_result := PeerNameError (ret : Z) | PeerName (a : sockaddr_in).

Record thread_input := {
  accept_res : accept_result;       (* kernel_accept *)
  peername_res : peername_result;   (* kernel_getpeername *)
  kzalloc_ok : bool;                (* kzalloc *)
  greeting_ret : Z;                 (* kernel_sendmsg *)
  greeting_time : Z                 (* ktime_get_ns *)
}.

(** One iteration of the [while (!kthread_should_stop())] loop of
    [ipdisp_network_thread]. *)
Definition ipdisp_network_thread_iteration (cpu : byte_order)
    (inp : thread_input) (s : state) : state :=
  match listen_sock (idev s) with
  | None => s
  | Some _ =>
      match accept_res inp with
      | AcceptError _ => s
      | Accepted sk =>
          match peername_res inp with
          | PeerNameError ret => sock_release sk (printk (WarnPeerName ret) s)
          | PeerName a =>
              match register_client sk a (kzalloc_ok inp)
                      (printk (InfoNewClient a) s) with
              | (None, s1) => s1
              | (Some client, s1) =>
                  ipdisp_network_cleanup_clients
                    (snd (ipdisp_network_send_display_info cpu
                            (greeting_time inp) (greeting_ret inp) client s1))
              end
          end
      end
  end.

(** ** [ipdisp_encoder.c] *)

(** [idev->width * idev->height * 4], in [u32]. *)
Definition frame_size (d : ipdisp_device) : Z :=
  u32 (u32 (width d * height d) * 4).

(** [ipdisp_stream_work_func]. *)
Definition ipdisp_stream_work_func (cpu : byte_order) (now : Z)
    (sendmsg_ret : nat -> Z) (s : state) : state :=
  match framebuffer (idev s) with
  | Some fb =>
      if negb (streaming_enabled (idev s)) then s
      else snd (ipdisp_network_send_frame cpu now sendmsg_ret fb
                  (frame_size (idev s)) s)
  | None => s
  end.

(** ** [ipdisp_drm.c]: the frame copy *)

Definition DRM_FORMAT_XRGB8888 : Z := 0x34325258.
Definition DRM_FORMAT_ARGB8888 : Z := 0x34325241.

(** What [ipdisp_pipe_update] reads of the plane's [struct drm_framebuffer]
    and of its first GEM object. *)
Record drm_framebuffer := {
  fb_format : Z;                (* fb->format->format *)
  fb_height : Z;                (* unsigned int *)
  fb_pitch0 : Z;                (* fb->pitches[0], unsigned int *)
  vaddr : option (list Z)       (* dma_obj->vaddr: NULL, or its bytes *)
}.

(** [memcpy(dst, src, n)] on the bytes the two pointers point to.  [None]
    is an access outside one of the two buffers. *)
Definition memcpy (dst src : list Z) (n : Z) : option (list Z) :=
  if (0 <=? n) && (n <=? Z.of_nat (length dst)) && (n <=? Z.of_nat (length src))
  then Some (take (Z.to_nat n) src ++ drop (Z.to_nat n) dst)
  else None.

(** [fb->height * fb->pitches[0]]: a product of two [unsigned int]. *)
Definition supplied_size (fb : drm_framebuffer) : Z :=
  u32 (fb_height fb * fb_pitch0 fb).

(** [min_t(size_t, idev->fb_size, fb->height * fb->pitches[0])]. *)
Definition copy_size (d : ipdisp_device) (fb : drm_framebuffer) : Z :=
  Z.min (fb_size d) (supplied_size fb).

Definition queue_stream_work (s : state) : state :=
  if stream_wq (idev s) then schedule_work s else s.

(** [ipdisp_pipe_enable] and [ipdisp_pipe_disable]. *)
Definition ipdisp_pipe_enable (s : state) : state :=
  queue_stream_work (with_streaming_enabled true s).

Definition ipdisp_pipe_disable (s : state) : state :=
  with_streaming_enabled false s.

(** [ipdisp_pipe_update]; [fb] is [pipe->plane.state->fb].  [None] is an
    access outside a buffer. *)
Definition ipdisp_pipe_update (fb : option drm_framebuffer) (s : state)
    : option state :=
  match fb with
  | None => Some s
  | Some fb =>
      if negb (streaming_enabled (idev s)) then Some s
      else
        match vaddr fb with
        | None => Some (printk WarnNoSourceAddress s)
        | Some src =>
            if (fb_format fb =? DRM_FORMAT_XRGB8888)
               || (fb_format fb =? DRM_FORMAT_ARGB8888)
            then
              match framebuffer (idev s) with
              | Some dst =>
                  match memcpy dst src (copy_size (idev s) fb) with
                  | Some dst' =>
                      Some (queue_stream_work (with_framebuffer (Some dst') s))
                  | None => None
                  end
              | None => None
              end
            else
              Some (queue_stream_work
                      (printk (WarnUnsupportedFormat (fb_format fb)) s))
        end
  end.

(** ** The running system *)

(** State after [ipdisp_device_init] has succeeded: the frame buffer is
    allocated and cleared, the client list is empty, the listening socket
    [l] is bound and streaming is off. *)
Definition init_state (w h : Z) (l : socket) : state :=
  let size := u32 (u32 (w * 4) * h) in
  {| idev := {| width := w; height := h;
                framebuffer := Some (replicate (Z.to_nat size) 0);
                fb_size := size;
                listen_sock := Some l;
                clients := [];
                stream_wq := true;
                streaming_enabled := false |};
     kern := {| released := []; wire := []; stream_work_queued := 0;
                klog := [] |} |}.

(** The operations that run concurrently.  Each one is a region the code
    runs under [clients_lock] or [fb_lock], or one that leaves the client
    list alone. *)
Inductive op :=
| OpRegister          (* accept loop: count, reject or add *)
| OpPeerNameFailed (* accept loop: getpeername failed *)
| OpGreeting       (* accept loop: send_display_info *)
| OpCleanup        (* accept loop: cleanup_clients *)
| OpSendFrame      (* dispatcher: send_frame *)
| OpPipeEnable     (* producer: pipe_enable *)
| OpPipeDisable    (* producer: pipe_disable *)
| OpPipeUpdate     (* producer: pipe_update *)
| OpShutdown.      (* network_cleanup *)

Inductive step : op -> state -> state -> Prop :=
| step_register sk a ok s :
    step OpRegister s (snd (register_client sk a ok (printk (InfoNewClient a) s)))
| step_peername sk ret s :
    step OpPeerNameFailed s (sock_release sk (printk (WarnPeerName ret) s))
| step_greeting cpu now ret c s :
    step OpGreeting s (snd (ipdisp_network_send_display_info cpu now ret c s))
| step_cleanup s :
    step OpCleanup s (ipdisp_network_cleanup_clients s)
| step_send_frame cpu now rets data size s :
    step OpSendFrame s (snd (ipdisp_network_send_frame cpu now rets data size s))
| step_pipe_enable s :
    step OpPipeEnable s (ipdisp_pipe_enable s)
| step_pipe_disable s :
    step OpPipeDisable s (ipdisp_pipe_disable s)
| step_pipe_update fb s s' :
    ipdisp_pipe_update fb s = Some s' ->
    step OpPipeUpdate s s'
| step_shutdown s :
    step OpShutdown s (ipdisp_network_cleanup s).

(** States the running driver can be in. *)
Inductive reachable : state -> Prop :=
| reachable_init w h l : reachable (init_state w h l)
| reachable_step o s s' : reachable s -> step o s s' -> reachable s'.

(** What operation [o] may do to the entries of the client list:
    - an entry stays as it is;
    - an active entry becomes inactive, in [ipdisp_network_send_frame];
    - an inactive entry is removed, in [ipdisp_network_cleanup_clients];
    - with [at_shutdown], any entry is removed in [ipdisp_network_cleanup];
    - one new, active entry is added at the tail, in the accept loop. *)
Inductive registry_trans (at_shutdown : bool) (o : op)
    : list ipdisp_client -> list ipdisp_client -> Prop :=
| rt_end :
    registry_trans at_shutdown o [] []
| rt_new c :
    o = OpRegister -> active c = true ->
    registry_trans at_shutdown o [] [c]
| rt_stay c l l' :
    registry_trans at_shutdown o l l' ->
    registry_trans at_shutdown o (c :: l) (c :: l')
| rt_demote c l l' :
    o = OpSendFrame -> active c = true ->
    registry_trans at_shutdown o l l' ->
    registry_trans at_shutdown o (c :: l) (set_inactive c :: l')
| rt_remove c l l' :
    o = OpCleanup -> active c = false ->
    registry_trans at_shutdown o l l' ->
    registry_trans at_shutdown o (c :: l) l'
| rt_shutdown c l l' :
    at_shutdown = true -> o = OpShutdown ->
    registry_trans at_shutdown o l l' ->
    registry_trans at_shutdown o (c :: l) l'.

(** A send that returned [ret] when [total] bytes were requested failed or
    was partial. *)
Definition send_failed (ret total : Z) : Prop := ret < 0 \/ ret <> total.

Definition is_active (c : ipdisp_client) : Prop := active c = true.
Definition is_inactive (c : ipdisp_client) : Prop := active c = false.

#[local] Instance is_active_dec c : Decision (is_active c).
Proof. unfold is_active. apply _. Defined.

#[local] Instance is_inactive_dec c : Decision (is_inactive c).
Proof. unfold is_inactive. apply _. Defined.

#[local] Instance send_failed_dec ret total : Decision (send_failed ret total).
Proof. unfold send_failed. apply _. Defined.

(** What a send that returned [ret] leaves of the entry it was made to. *)
Definition after_send (ret total : Z) (c : ipdisp_client) : ipdisp_client :=
  if decide (send_failed ret total) then set_inactive c else c.

#[local] Instance op_eq_dec : EqDecision op.
Proof. solve_decision. Defined.

Definition is_shutdown (o : op) : bool :=
  match o with OpShutdown => true | _ => false end.

(** The loop [ipdisp_network_send_frame] runs on the state [s]. *)
Definition frame_loop (cpu : byte_order) (now : Z) (rets : nat -> Z)
    (data : list Z) (size : Z) (s : state) :=
  send_frame_loop rets (frame_message cpu (idev s) now data size)
    (frame_total size) 0 (clients (idev s)).

(** The frame buffer is allocated once: in every reachable state it is
    there and holds [fb_size] bytes. *)
Definition fb_allocated (s : state) : Prop :=
  exists buf, framebuffer (idev s) = Some buf /\
              Z.of_nat (length buf) = fb_size (idev s).

(** ** Example configurations *)

Definition peer (n : nat) : sockaddr_in :=
  {| sin_addr := 0x7f000001; sin_port := 40000 + Z.of_nat n |}.

(** The driver loaded with its default resolution, listening. *)
Definition booted : state := init_state 1920 1080 100%nat.

(** A connection from [peer sk] accepted as socket [sk], to which the
    greeting send returns [ret]. *)
Definition connection (sk : socket) (ret : Z) : thread_input :=
  {| accept_res := Accepted sk;
     peername_res := PeerName (peer sk);
     kzalloc_ok := true;
     greeting_ret := ret;
     greeting_time := 1000 |}.

(** A connection whose peer address cannot be read. *)
Definition nameless_connection (sk : socket) : thread_input :=
  {| accept_res := Accepted sk;
     peername_res := PeerNameError (-107);
     kzalloc_ok := true;
     greeting_ret := 36;
     greeting_time := 1000 |}.

Definition one_client : state :=
  ipdisp_network_thread_iteration LittleEndian (connection 1%nat 36) booted.

Definition four_clients : state :=
  foldl (fun s sk =>
           ipdisp_network_thread_iteration LittleEndian (connection sk 36) s)
        booted [1; 2; 3; 4]%nat.

(** A plane framebuffer of 2 lines of 8 bytes. *)
Definition small_fb : drm_framebuffer :=
  {| fb_format := DRM_FORMAT_XRGB8888; fb_height := 2; fb_pitch0 := 8;
     vaddr := Some (replicate 16 255) |}.

(** ** Sockets and queueing *)

(** The sockets of the entries of the client list. *)
Definition held (s : state) : list socket := map sock (clients (idev s)).

(** [ipdisp_encoder_queue_frame]. *)
Definition ipdisp_encoder_queue_frame (s : state) : state :=
  if streaming_enabled (idev s) && stream_wq (idev s) then schedule_work s
  else s.

(** [ipdisp_drm_update_frame]. *)
Definition ipdisp_drm_update_frame (s : state) : state :=
  if streaming_enabled (idev s) && stream_wq (idev s) then schedule_work s
  else s.

(** The frame buffer size [ipdisp_device_init] computes from the geometry:
    [idev->pitch * height] with [idev->pitch = width * 4], both in [u32]. *)
Definition geometry_consistent (s : state) : Prop :=
  fb_size (idev s) = u32 (u32 (width (idev s) * 4) * height (idev s)).

(** A small device with one client and streaming on, and a plane that
    covers its frame buffer of 2 x 3 pixels. *)
Definition streaming_one_client : state :=
  ipdisp_pipe_enable
    (ipdisp_network_thread_iteration LittleEndian (connection 1%nat 36)
       (init_state 2 3 100%nat)).

Definition full_fb : drm_framebuffer :=
  {| fb_format := DRM_FORMAT_ARGB8888; fb_height := 3; fb_pitch0 := 8;
     vaddr := Some (replicate 24 255) |}.

(** ** [ipdisp_drm.c]: the connector *)

(** What the connector functions read and write of a
    [struct drm_display_mode]. *)
Record drm_display_mode := {
  hdisplay : Z;    (* u16 *)
  vdisplay : Z;    (* u16 *)
  mode_type : Z    (* u8, DRM_MODE_TYPE_* bits *)
}.

(** Mode type bits of [drm_mode.h]: [1 << 3] and [1 << 6]. *)
Definition DRM_MODE_TYPE_PREFERRED : Z := 8.
Definition DRM_MODE_TYPE_DRIVER : Z := 64.

(** The sizes and type of [default_modes]. *)
Definition default_modes : list drm_display_mode :=
  [ {| hdisplay := 1920; vdisplay := 1080; mode_type := DRM_MODE_TYPE_DRIVER |};
    {| hdisplay := 1680; vdisplay := 1050; mode_type := DRM_MODE_TYPE_DRIVER |};
    {| hdisplay := 1280; vdisplay := 1024; mode_type := DRM_MODE_TYPE_DRIVER |};
    {| hdisplay := 1024; vdisplay := 768; mode_type := DRM_MODE_TYPE_DRIVER |} ].

Inductive drm_mode_status := MODE_OK | MODE_BAD.

(** [ipdisp_connector_mode_valid]. *)
Definition ipdisp_connector_mode_valid (d : ipdisp_device)
    (mode : drm_display_mode) : drm_mode_status :=
  if (hdisplay mode >? 7680) || (vdisplay mode >? 4320) then MODE_BAD
  else if (hdisplay mode <? 640) || (vdisplay mode <? 480) then MODE_BAD
  else if (hdisplay mode =? width d) && (vdisplay mode =? height d) then MODE_OK
  else MODE_OK.

(** [mode->hdisplay == idev->width && mode->vdisplay == idev->height]. *)
Definition current_resolution (d : ipdisp_device) (m : drm_display_mode)
    : bool :=
  (hdisplay m =? width d) && (vdisplay m =? height d).

(** [mode->type |= DRM_MODE_TYPE_PREFERRED]. *)
Definition set_preferred (m : drm_display_mode) : drm_display_mode :=
  {| hdisplay := hdisplay m; vdisplay := vdisplay m;
     mode_type := Z.lor (mode_type m) DRM_MODE_TYPE_PREFERRED |}.

(** [mode->type & DRM_MODE_TYPE_PREFERRED]. *)
Definition is_preferred (m : drm_display_mode) : bool :=
  negb (Z.land (mode_type m) DRM_MODE_TYPE_PREFERRED =? 0).

(** The first loop of [ipdisp_connector_get_modes], from index [i] on:
    the modes added to the connector, in order, and their number.
    [duplicate_ok j] says whether [drm_mode_duplicate] of entry [j]
    succeeds. *)
Fixpoint add_default_modes (d : ipdisp_device) (duplicate_ok : nat -> bool)
    (i : nat) (modes : list drm_display_mode)
    : list drm_display_mode * Z :=
  match modes with
  | [] => ([], 0)
  | m :: rest =>
      let '(probed, count) := add_default_modes d duplicate_ok (S i) rest in
      if duplicate_ok i then
        ((if current_resolution d m then set_preferred m else m) :: probed,
         count + 1)
      else (probed, count)
  end.

(** The second loop: is the configured resolution among the defaults. *)
Fixpoint found_in (d : ipdisp_device) (modes : list drm_display_mode) : bool :=
  match modes with
  | [] => false
  | m :: rest => if current_resolution d m then true else found_in d rest
  end.

(** [ipdisp_connector_get_modes]: the return value and the modes added.
    [cvt] is what [drm_cvt_mode] returns for the configured resolution,
    [None] for [NULL]. *)
Definition ipdisp_connector_get_modes (d : ipdisp_device)
    (duplicate_ok : nat -> bool) (cvt : option drm_display_mode)
    : Z * list drm_display_mode :=
  let '(probed, count) := add_default_modes d duplicate_ok 0 default_modes in
  if negb (found_in d default_modes) then
    match cvt with
    | Some m => (count + 1, probed ++ [set_preferred m])
    | None => (count, probed)
    end
  else (count, probed).

(** ** [ipdisp_main.c]: loading the module *)

Definition EINVAL : Z := 22.
Definition ENOMEM : Z := 12.

Inductive module_msg :=
| InfoLoading
| ErrInvalidWidth (w : Z)
| ErrInvalidHeight (h : Z)
| ErrInvalidPort (p : Z)
| ErrRegisterDevice (ret : Z)
| ErrRegisterDriver (ret : Z)
| InfoUnloading.

(** What the module has registered with the platform bus, and what it has
    logged. *)
Record platform := {
  device_registered : bool;
  driver_registered : bool;
  module_log : list module_msg
}.

Definition unloaded : platform :=
  {| device_registered := false; driver_registered := false;
     module_log := [] |}.

Definition module_printk (m : module_msg) (p : platform) : platform :=
  {| device_registered := device_registered p;
     driver_registered := driver_registered p;
     module_log := module_log p ++ [m] |}.

Definition set_device_registered (b : bool) (p : platform) : platform :=
  {| device_registered := b;
     driver_registered := driver_registered p;
     module_log := module_log p |}.

Definition set_driver_registered (b : bool) (p : platform) : platform :=
  {| device_registered := device_registered p;
     driver_registered := b;
     module_log := module_log p |}.

(** [ipdisp_init], on the module parameters [width], [height] and [port];
    [device_ret] and [driver_ret] are what [platform_device_register] and
    [platform_driver_register] return. *)
Definition ipdisp_init (w h port : Z) (device_ret driver_ret : Z)
    (p : platform) : Z * platform :=
  let p := module_printk InfoLoading p in
  if (w <? 640) || (w >? 7680) then
    (- EINVAL, module_printk (ErrInvalidWidth w) p)
  else if (h <? 480) || (h >? 4320) then
    (- EINVAL, module_printk (ErrInvalidHeight h) p)
  else if (port <? 1024) || (port >? 65535) then
    (- EINVAL, module_printk (ErrInvalidPort port) p)
  else if negb (device_ret =? 0) then
    (device_ret, module_printk (ErrRegisterDevice device_ret) p)
  else
    let p1 := set_device_registered true p in
    if negb (driver_ret =? 0) then
      (driver_ret,
       set_device_registered false
         (module_printk (ErrRegisterDriver driver_ret) p1))
    else (0, set_driver_registered true p1).

(** [ipdisp_exit]. *)
Definition ipdisp_exit (p : platform) : platform :=
  set_device_registered false
    (set_driver_registered false (module_printk InfoUnloading p)).

(** The ranges [ipdisp_init] accepts. *)
Definition params_ok (w h port : Z) : Prop :=
  640 <= w <= 7680 /\ 480 <= h <= 4320 /\ 1024 <= port <= 65535.

(** ** Start-up and teardown of the device *)

(** Lines the start-up and teardown functions write to the kernel log. *)
Inductive boot_msg :=
| ErrCreateSocket (ret : Z)
| WarnReuseAddr (ret : Z)
| ErrBind (ret : Z)
| ErrListen (ret : Z)
| ErrNetworkThread (ret : Z)
| InfoNetworkInitialized
| ErrWorkqueue
| InfoEncoderInitialized
| InfoEncoderCleanedUp
| ErrModeConfig (ret : Z)
| ErrConnector (ret : Z)
| ErrDisplayPipe (ret : Z)
| ErrVblank (ret : Z)
| InfoDrmInitialized
| ErrFramebuffer
| InfoFramebuffer (size w h : Z)
| ErrDrm (ret : Z)
| ErrNetwork (ret : Z)
| ErrEncoder (ret : Z)
| InfoDeviceInitialized
| InfoCleaningUp
| InfoProbing
| ErrAllocDevice (ret : Z)
| ErrInitDevice (ret : Z)
| ErrRegisterDrm (ret : Z)
| InfoLoaded
| InfoResolution (w h port : Z)
| InfoRemoving.

(** [idev->network_thread]: [NULL], an [ERR_PTR] left by a failed
    [kthread_run], or the running thread. *)
Inductive thread_ptr := ThreadNull | ThreadErr (ret : Z) | ThreadRunning.

(** The limits [ipdisp_drm_init] writes to [drm->mode_config]. *)
Record mode_limits := {
  min_width : Z; max_width : Z;
  min_height : Z; max_height : Z;
  preferred_depth : Z
}.

(** The device with the fields and kernel resources that only start-up
    and teardown touch. *)
Record driver := {
  core : state;
  port : Z;                          (* u16 *)
  pitch : Z;                         (* u32 *)
  network_thread : thread_ptr;
  mode_config : option mode_limits;
  connector_live : bool;             (* drm_connector_init .. _cleanup *)
  dma_allocated : nat;               (* dma_alloc_coherent that succeeded *)
  dma_freed : nat;                   (* dma_free_coherent *)
  drm_registered : bool;             (* drm_dev_register .. _unregister *)
  global_dev : bool;                 (* ipdisp_global_dev != NULL *)
  boot_log : list boot_msg
}.

Definition on_core (f : state -> state) (d : driver) : driver :=
  {| core := f (core d); port := port d; pitch := pitch d;
     network_thread := network_thread d; mode_config := mode_config d;
     connector_live := connector_live d;
     dma_allocated := dma_allocated d; dma_freed := dma_freed d;
     drm_registered := drm_registered d; global_dev := global_dev d;
     boot_log := boot_log d |}.

Definition with_port_pitch (p q : Z) (d : driver) : driver :=
  {| core := core d; port := p; pitch := q;
     network_thread := network_thread d; mode_config := mode_config d;
     connector_live := connector_live d;
     dma_allocated := dma_allocated d; dma_freed := dma_freed d;
     drm_registered := drm_registered d; global_dev := global_dev d;
     boot_log := boot_log d |}.

Definition with_network_thread (t : thread_ptr) (d : driver) : driver :=
  {| core := core d; port := port d; pitch := pitch d;
     network_thread := t; mode_config := mode_config d;
     connector_live := connector_live d;
     dma_allocated := dma_allocated d; dma_freed := dma_freed d;
     drm_registered := drm_registered d; global_dev := global_dev d;
     boot_log := boot_log d |}.

Definition with_mode_config (m : option mode_limits) (d : driver) : driver :=
  {| core := core d; port := port d; pitch := pitch d;
     network_thread := network_thread d; mode_config := m;
     connector_live := connector_live d;
     dma_allocated := dma_allocated d; dma_freed := dma_freed d;
     drm_registered := drm_registered d; global_dev := global_dev d;
     boot_log := boot_log d |}.

Definition with_connector (b : bool) (d : driver) : driver :=
  {| core := core d; port := port d; pitch := pitch d;
     network_thread := network_thread d; mode_config := mode_config d;
     connector_live := b;
     dma_allocated := dma_allocated d; dma_freed := dma_freed d;
     drm_registered := drm_registered d; global_dev := global_dev d;
     boot_log := boot_log d |}.

Definition dma_alloc_coherent (d : driver) : driver :=
  {| core := core d; port := port d; pitch := pitch d;
     network_thread := network_thread d; mode_config := mode_config d;
     connector_live := connector_live d;
     dma_allocated := S (dma_allocated d); dma_freed := dma_freed d;
     drm_registered := drm_registered d; global_dev := global_dev d;
     boot_log := boot_log d |}.

Definition dma_free_coherent (d : driver) : driver :=
  {| core := core d; port := port d; pitch := pitch d;
     network_thread := network_thread d; mode_config := mode_config d;
     connector_live := connector_live d;
     dma_allocated := dma_allocated d; dma_freed := S (dma_freed d);
     drm_registered := drm_registered d; global_dev := global_dev d;
     boot_log := boot_log d |}.

Definition with_drm_registered (b : bool) (d : driver) : driver :=
  {| core := core d; port := port d; pitch := pitch d;
     network_thread := network_thread d; mode_config := mode_config d;
     connector_live := connector_live d;
     dma_allocated := dma_allocated d; dma_freed := dma_freed d;
     drm_registered := b; global_dev := global_dev d;
     boot_log := boot_log d |}.

Definition with_global_dev (b : bool) (d : driver) : driver :=
  {| core := core d; port := port d; pitch := pitch d;
     network_thread := network_thread d; mode_config := mode_config d;
     connector_live := connector_live d;
     dma_allocated := dma_allocated d; dma_freed := dma_freed d;
     drm_registered := drm_registered d; global_dev := b;
     boot_log := boot_log d |}.

Definition boot_printk (m : boot_msg) (d : driver) : driver :=
  {| core := core d; port := port d; pitch := pitch d;
     network_thread := network_thread d; mode_config := mode_config d;
     connector_live := connector_live d;
     dma_allocated := dma_allocated d; dma_freed := dma_freed d;
     drm_registered := drm_registered d; global_dev := global_dev d;
     boot_log := boot_log d ++ [m] |}.

Definition with_stream_wq (b : bool) (s : state) : state :=
  {| idev := {| width := width (idev s); height := height (idev s);
                framebuffer := framebuffer (idev s);
                fb_size := fb_size (idev s);
                listen_sock := listen_sock (idev s);
                clients := clients (idev s);
                stream_wq := b;
                streaming_enabled := streaming_enabled (idev s) |};
     kern := kern s |}.

Definition with_geometry (w h size : Z) (s : state) : state :=
  {| idev := {| width := w; height := h;
                framebuffer := framebuffer (idev s);
                fb_size := size;
                listen_sock := listen_sock (idev s);
                clients := clients (idev s);
                stream_wq := stream_wq (idev s);
                streaming_enabled := streaming_enabled (idev s) |};
     kern := kern s |}.

(** The device as [devm_drm_dev_alloc] hands it over: zeroed. *)
Definition zeroed : driver :=
  {| core := {| idev := {| width := 0; height := 0; framebuffer := None;
                           fb_size := 0; listen_sock := None; clients := [];
                           stream_wq := false; streaming_enabled := false |};
                kern := {| released := []; wire := [];
                           stream_work_queued := 0; klog := [] |} |};
     port := 0; pitch := 0; network_thread := ThreadNull;
     mode_config := None; connector_live := false;
     dma_allocated := 0; dma_freed := 0;
     drm_registered := false; global_dev := false; boot_log := [] |}.

(** What the kernel answers to [ipdisp_network_init]. *)
Inductive kthread_run_result := KthreadError (ret : Z) | KthreadStarted.

Record network_init_input := {
  sock_create_ret : Z;            (* sock_create *)
  sock_create_sock : socket;      (* the socket, when that is not negative *)
  setsockopt_ret : Z;             (* kernel_setsockopt *)
  bind_ret : Z;                   (* kernel_bind *)
  listen_ret : Z;                 (* kernel_listen *)
  kthread_run_res : kthread_run_result
}.

(** [ipdisp_network_init]. *)
Definition ipdisp_network_init (inp : network_init_input) (d : driver)
    : Z * driver :=
  if sock_create_ret inp <? 0 then
    (sock_create_ret inp, boot_printk (ErrCreateSocket (sock_create_ret inp)) d)
  else
    let sk := sock_create_sock inp in
    let d1 := if setsockopt_ret inp <? 0
              then boot_printk (WarnReuseAddr (setsockopt_ret inp)) d
              else d in
    if bind_ret inp <? 0 then
      (bind_ret inp,
       on_core (sock_release sk) (boot_printk (ErrBind (bind_ret inp)) d1))
    else if listen_ret inp <? 0 then
      (listen_ret inp,
       on_core (sock_release sk) (boot_printk (ErrListen (listen_ret inp)) d1))
    else
      let d2 := on_core (with_listen_sock (Some sk)) d1 in
      match kthread_run_res inp with
      | KthreadError ret =>
          (ret,
           on_core (with_listen_sock None)
             (on_core (sock_release sk)
                (boot_printk (ErrNetworkThread ret)
                   (with_network_thread (ThreadErr ret) d2))))
      | KthreadStarted =>
          (0, boot_printk InfoNetworkInitialized
                (with_network_thread ThreadRunning d2))
      end.

(** [ipdisp_network_cleanup] with its [kthread_stop].  [None]:
    [kthread_stop] was called on an error pointer. *)
Definition ipdisp_network_cleanup_driver (d : driver) : option driver :=
  match network_thread d with
  | ThreadErr _ => None
  | ThreadRunning =>
      Some (on_core ipdisp_network_cleanup (with_network_thread ThreadNull d))
  | ThreadNull => Some (on_core ipdisp_network_cleanup d)
  end.

(** [ipdisp_encoder_init]; [wq_ok] says whether [alloc_workqueue]
    succeeds. *)
Definition ipdisp_encoder_init (wq_ok : bool) (d : driver) : Z * driver :=
  if negb wq_ok then
    (- ENOMEM, boot_printk ErrWorkqueue (on_core (with_stream_wq false) d))
  else
    (0, boot_printk InfoEncoderInitialized
          (on_core (with_streaming_enabled false)
             (on_core (with_stream_wq true) d))).

(** [ipdisp_encoder_cleanup].  Work flushed while streaming is off returns
    at once. *)
Definition ipdisp_encoder_cleanup (d : driver) : driver :=
  let d1 := on_core (with_streaming_enabled false) d in
  boot_printk InfoEncoderCleanedUp
    (if stream_wq (idev (core d1)) then on_core (with_stream_wq false) d1
     else d1).

(** What the DRM core answers to [ipdisp_drm_init]. *)
Record drm_init_input := {
  mode_config_ret : Z;     (* drmm_mode_config_init *)
  connector_ret : Z;       (* drm_connector_init *)
  pipe_ret : Z;            (* drm_simple_display_pipe_init *)
  vblank_ret : Z           (* drm_vblank_init *)
}.

(** [ipdisp_drm_init]. *)
Definition ipdisp_drm_init (inp : drm_init_input) (d : driver) : Z * driver :=
  if negb (mode_config_ret inp =? 0) then
    (mode_config_ret inp, boot_printk (ErrModeConfig (mode_config_ret inp)) d)
  else
    let d1 := with_mode_config
                (Some {| min_width := 640; max_width := 7680;
                         min_height := 480; max_height := 4320;
                         preferred_depth := 32 |}) d in
    if negb (connector_ret inp =? 0) then
      (connector_ret inp, boot_printk (ErrConnector (connector_ret inp)) d1)
    else
      let d2 := with_connector true d1 in
      if negb (pipe_ret inp =? 0) then
        (pipe_ret inp,
         with_connector false
           (boot_printk (ErrDisplayPipe (pipe_ret inp)) d2))
      else if negb (vblank_ret inp =? 0) then
        (vblank_ret inp,
         with_connector false (boot_printk (ErrVblank (vblank_ret inp)) d2))
      else (0, boot_printk InfoDrmInitialized d2).

(** [ipdisp_drm_cleanup]: nothing. *)
Definition ipdisp_drm_cleanup (d : driver) : driver := d.

(** What the kernel answers to [ipdisp_device_init]. *)
Record device_init_input := {
  dma_alloc_ok : bool;               (* dma_alloc_coherent *)
  drm_inp : drm_init_input;
  net_inp : network_init_input;
  wq_alloc_ok : bool                 (* alloc_workqueue *)
}.

(** [ipdisp_device_init] on the module parameters.  [None]: a
    [kthread_stop] on an error pointer. *)
Definition ipdisp_device_init (w h p : Z) (inp : device_init_input)
    (d : driver) : option (Z * driver) :=
  let size := u32 (u32 (w * 4) * h) in
  let d0 := on_core (with_clients [])
              (on_core (with_geometry w h size)
                 (with_port_pitch (p mod 2 ^ 16) (u32 (w * 4)) d)) in
  if negb (dma_alloc_ok inp) then
    Some (- ENOMEM,
          boot_printk ErrFramebuffer (on_core (with_framebuffer None) d0))
  else
    let d1 := boot_printk (InfoFramebuffer size w h)
                (on_core (with_framebuffer (Some (replicate (Z.to_nat size) 0)))
                   (dma_alloc_coherent d0)) in
    let '(ret, d2) := ipdisp_drm_init (drm_inp inp) d1 in
    if negb (ret =? 0) then
      Some (ret, dma_free_coherent (boot_printk (ErrDrm ret) d2))
    else
      let '(ret, d3) := ipdisp_network_init (net_inp inp) d2 in
      if negb (ret =? 0) then
        Some (ret,
              dma_free_coherent
                (ipdisp_drm_cleanup (boot_printk (ErrNetwork ret) d3)))
      else
        let '(ret, d4) := ipdisp_encoder_init (wq_alloc_ok inp) d3 in
        if negb (ret =? 0) then
          match ipdisp_network_cleanup_driver
                  (boot_printk (ErrEncoder ret) d4) with
          | Some d5 => Some (ret, dma_free_coherent (ipdisp_drm_cleanup d5))
          | None => None
          end
        else Some (0, boot_printk InfoDeviceInitialized d4).

(** [ipdisp_device_cleanup]. *)
Definition ipdisp_device_cleanup (d : driver) : option driver :=
  match ipdisp_network_cleanup_driver
          (ipdisp_encoder_cleanup (boot_printk InfoCleaningUp d)) with
  | Some d1 =>
      let d2 := ipdisp_drm_cleanup d1 in
      Some (match framebuffer (idev (core d2)) with
            | Some _ => dma_free_coherent d2
            | None => d2
            end)
  | None => None
  end.

(** What the kernel answers to [ipdisp_probe]. *)
Record probe_input := {
  dev_alloc_ret : Z;                 (* devm_drm_dev_alloc: 0, or PTR_ERR *)
  dev_init_inp : device_init_input;
  drm_register_ret : Z               (* drm_dev_register *)
}.

(** [ipdisp_probe] on the module parameters: the return value and the
    device (the zeroed one when none was allocated). *)
Definition ipdisp_probe (w h p : Z) (inp : probe_input)
    : option (Z * driver) :=
  let d := boot_printk InfoProbing zeroed in
  if negb (dev_alloc_ret inp =? 0) then
    Some (dev_alloc_ret inp, boot_printk (ErrAllocDevice (dev_alloc_ret inp)) d)
  else
    match ipdisp_device_init w h p (dev_init_inp inp) d with
    | None => None
    | Some (ret, d1) =>
        if negb (ret =? 0) then Some (ret, boot_printk (ErrInitDevice ret) d1)
        else if negb (drm_register_ret inp =? 0) then
          match ipdisp_device_cleanup
                  (boot_printk (ErrRegisterDrm (drm_register_ret inp)) d1) with
          | Some d2 => Some (drm_register_ret inp, d2)
          | None => None
          end
        else
          Some (0, boot_printk (InfoResolution w h p)
                     (boot_printk InfoLoaded
                        (with_global_dev true (with_drm_registered true d1))))
    end.

(** [ipdisp_remove]. *)
Definition ipdisp_remove (d : driver) : option driver :=
  match ipdisp_device_cleanup
          (with_drm_registered false (boot_printk InfoRemoving d)) with
  | Some d1 => Some (with_global_dev false d1)
  | None => None
  end.

(** An error pointer holds a negative error number. *)
Definition thread_error_negative (inp : network_init_input) : Prop :=
  forall ret, kthread_run_res inp = KthreadError ret -> ret < 0.

(** The answers of the kernel that let [ipdisp_network_init] succeed. *)
Definition network_init_succeeds (inp : network_init_input) : Prop :=
  0 <= sock_create_ret inp /\ 0 <= bind_ret inp /\ 0 <= listen_ret inp /\
  kthread_run_res inp = KthreadStarted.

(** The answers of the kernel that let [ipdisp_drm_init] succeed. *)
Definition drm_init_succeeds (inp : drm_init_input) : Prop :=
  mode_config_ret inp = 0 /\ connector_ret inp = 0 /\
  pipe_ret inp = 0 /\ vblank_ret inp = 0.

(** The answers of the kernel that let [ipdisp_device_init] succeed. *)
Definition init_succeeds (inp : device_init_input) : Prop :=
  dma_alloc_ok inp = true /\
  drm_init_succeeds (drm_inp inp) /\
  network_init_succeeds (net_inp inp) /\
  wq_alloc_ok inp = true.

(** Whether [ipdisp_device_init] gets as far as creating the listening
    socket. *)
Definition socket_created (inp : device_init_input) : Prop :=
  dma_alloc_ok inp = true /\ drm_init_succeeds (drm_inp inp) /\
  0 <= sock_create_ret (net_inp inp).

(** A device on which the network has not been started. *)
Definition network_down (d : driver) : Prop :=
  network_thread d = ThreadNull /\ listen_sock (idev (core d)) = None.

(** The device holds no kernel resource of the network, the encoder or
    the frame buffer. *)
Definition torn_down (d : driver) : Prop :=
  network_thread d <> ThreadRunning /\
  listen_sock (idev (core d)) = None /\
  clients (idev (core d)) = [] /\
  stream_wq (idev (core d)) = false /\
  streaming_enabled (idev (core d)) = false /\
  dma_allocated d = dma_freed d.

#[local] Instance drm_init_succeeds_dec inp : Decision (drm_init_succeeds inp).
Proof. unfold drm_init_succeeds. apply _. Defined.

#[local] Instance socket_created_dec inp : Decision (socket_created inp).
Proof. unfold socket_created. apply _. Defined.

(** A device that has just been allocated: zeroed, whatever was logged. *)
Definition fresh (d : driver) : Prop :=
  core d = core zeroed /\ network_thread d = ThreadNull /\
  dma_allocated d = dma_freed d /\
  drm_registered d = false /\ global_dev d = false.

(** Example answers of the kernel: everything succeeds, with the listening
    socket [100]; and the same with a work queue that cannot be
    allocated. *)
Definition all_ok : device_init_input :=
  {| dma_alloc_ok := true;
     drm_inp := {| mode_config_ret := 0; connector_ret := 0;
                   pipe_ret := 0; vblank_ret := 0 |};
     net_inp := {| sock_create_ret := 0; sock_create_sock := 100%nat;
                   setsockopt_ret := 0; bind_ret := 0; listen_ret := 0;
                   kthread_run_res := KthreadStarted |};
     wq_alloc_ok := true |}.

Definition no_workqueue : device_init_input :=
  {| dma_alloc_ok := true;
     drm_inp := drm_inp all_ok;
     net_inp := net_inp all_ok;
     wq_alloc_ok := false |}.

(** A probe in which everything comes up and [drm_dev_register] then
    fails. *)
Definition registration_fails : probe_input :=
  {| dev_alloc_ret := 0; dev_init_inp := all_ok; drm_register_ret := -12 |}.

(** The driver running with four clients. *)
Definition running_four : driver :=
  {| core := four_clients; port := 8080; pitch := 7680;
     network_thread := ThreadRunning;
     mode_config := Some {| min_width := 640; max_width := 7680;
                            min_height := 480; max_height := 4320;
                            preferred_depth := 32 |};
     connector_live := true; dma_allocated := 1; dma_freed := 0;
     drm_registered := true; global_dev := true; boot_log := [] |}.

(** One client whose connection has broken, streaming on. *)
Definition one_dead_client : state :=
  ipdisp_pipe_enable
    (with_clients [{| sock := 1%nat; addr := peer 1; active := false |}]
       (init_state 2 3 100%nat)).

(** ** Byte-level lemmas *)

Lemma length_le_bytes n x : length (le_bytes n x) = n.
Proof. revert x; induction n as [|n IH]; intros x; simpl; [done | by rewrite IH]. Qed.

Lemma length_be_bytes n x : length (be_bytes n x) = n.
Proof. unfold be_bytes. by rewrite length_rev, length_le_bytes. Qed.

Lemma length_store cpu n x : length (store cpu n x) = n.
Proof. destruct cpu; [apply length_le_bytes | apply length_be_bytes]. Qed.

Lemma le_bytes_is_byte n x : Forall is_byte (le_bytes n x).
Proof.
  revert x; induction n as [|n IH]; intros x; simpl; constructor; [|apply IH].
  unfold is_byte. apply Z.mod_pos_bound. lia.
Qed.

Lemma le_value_le_bytes n x : le_value (le_bytes n x) = x mod 256 ^ Z.of_nat n.
Proof.
  revert x; induction n as [|n IH]; intros x.
  - simpl. by rewrite Z.mod_1_r.
  - cbn [le_bytes le_value]. rewrite IH.
    rewrite Nat2Z.inj_succ, Z.pow_succ_r by lia.
    rewrite Z.rem_mul_r by lia. reflexivity.
Qed.

Lemma le_bytes_le_value bs :
  Forall is_byte bs -> le_bytes (length bs) (le_value bs) = bs.
Proof.
  induction 1 as [|b bs Hb _ IH]; [done|].
  cbn [length le_bytes le_value]. unfold is_byte in Hb.
  assert (Hm : (b + 256 * le_value bs) mod 256 = b).
  { symmetry. apply Z.mod_unique with (q := le_value bs); lia. }
  assert (Hd : (b + 256 * le_value bs) / 256 = le_value bs).
  { symmetry. apply Z.div_unique with (r := b); lia. }
  by rewrite Hm, Hd, IH.
Qed.

Lemma le_bytes_mod n x : le_bytes n (x mod 256 ^ Z.of_nat n) = le_bytes n x.
Proof.
  rewrite <- le_value_le_bytes.
  rewrite <- (length_le_bytes n x) at 1.
  apply le_bytes_le_value, le_bytes_is_byte.
Qed.

Lemma be_value_be_bytes n x : be_value (be_bytes n x) = x mod 256 ^ Z.of_nat n.
Proof. unfold be_value, be_bytes. by rewrite rev_involutive, le_value_le_bytes. Qed.

Lemma le_bytes_swab n x : le_bytes n (swab n x) = be_bytes n x.
Proof.
  unfold swab, be_bytes.
  rewrite <- (length_le_bytes n x) at 1. rewrite <- length_rev.
  apply le_bytes_le_value, Forall_rev, le_bytes_is_byte.
Qed.

(** Whatever the byte order of the CPU, a field assigned [cpu_to_be32(x)]
    holds the four bytes of [x] in network order. *)
Lemma store_cpu_to_be32 cpu x : store cpu 4 (cpu_to_be32 cpu x) = be_bytes 4 x.
Proof.
  destruct cpu; unfold store, cpu_to_be32, u32.
  - rewrite le_bytes_swab. unfold be_bytes. f_equal. apply (le_bytes_mod 4).
  - unfold be_bytes. f_equal. apply (le_bytes_mod 4).
Qed.

Lemma store_cpu_to_be64 cpu x : store cpu 8 (cpu_to_be64 cpu x) = be_bytes 8 x.
Proof.
  destruct cpu; unfold store, cpu_to_be64, u64.
  - rewrite le_bytes_swab. unfold be_bytes. f_equal. apply (le_bytes_mod 8).
  - unfold be_bytes. f_equal. apply (le_bytes_mod 8).
Qed.

(** A field assigned the literal [0] is four zero bytes on either CPU. *)
Lemma store_zero cpu : store cpu 4 0 = be_bytes 4 0.
Proof. by destruct cpu. Qed.

(** ** The wire image of the header *)

Module HeaderFacts.
Import PacketHeader.

Lemma length_image cpu h : length (image cpu h) = 36%nat.
Proof. unfold image. by rewrite !length_app, !length_store. Qed.

(** The image of a converted header is the sequence of its fields, each
    in network order. *)
Lemma encode_be cpu h :
  encode cpu h =
    be_bytes 4 (magic h) ++ be_bytes 4 (version h) ++
    be_bytes 4 (width h) ++ be_bytes 4 (height h) ++
    be_bytes 4 (format h) ++ be_bytes 8 (timestamp h) ++
    be_bytes 4 (size h) ++ be_bytes 4 (reserved h).
Proof.
  unfold encode, image, to_wire; cbn [magic version width height format
    timestamp size reserved].
  by rewrite !store_cpu_to_be32, store_cpu_to_be64.
Qed.

Lemma cpu_to_be32_0 cpu : cpu_to_be32 cpu 0 = 0.
Proof. by destruct cpu. Qed.

(** Both senders build an instance of [to_wire]: the fields they assign
    the literal [0] hold the same bytes as a converted [0]. *)
Lemma display_info_to_wire cpu w h now :
  display_info cpu w h now = to_wire cpu (greeting_fields w h now).
Proof.
  unfold display_info, to_wire, greeting_fields; cbn [magic version width
    height format timestamp size reserved].
  by rewrite !cpu_to_be32_0.
Qed.

Lemma frame_to_wire cpu w h now sz :
  frame cpu w h now sz = to_wire cpu (frame_fields w h now sz).
Proof.
  unfold frame, to_wire, frame_fields; cbn [magic version width
    height format timestamp size reserved].
  by rewrite !cpu_to_be32_0.
Qed.

Lemma image_display_info cpu w h now :
  image cpu (display_info cpu w h now) =
    be_bytes 4 IPDISP_MAGIC ++ be_bytes 4 IPDISP_VERSION ++
    be_bytes 4 w ++ be_bytes 4 h ++ be_bytes 4 IPDISP_FORMAT_RGBA32 ++
    be_bytes 8 now ++ be_bytes 4 0 ++ be_bytes 4 0.
Proof. rewrite display_info_to_wire. apply (encode_be cpu). Qed.

Lemma image_frame cpu w h now sz :
  image cpu (frame cpu w h now sz) =
    be_bytes 4 IPDISP_MAGIC ++ be_bytes 4 IPDISP_VERSION ++
    be_bytes 4 w ++ be_bytes 4 h ++ be_bytes 4 IPDISP_FORMAT_RGBA32 ++
    be_bytes 8 now ++ be_bytes 4 sz ++ be_bytes 4 0.
Proof. rewrite frame_to_wire. apply (encode_be cpu). Qed.

Lemma field_at (pre bs post : list Z) off len :
  length pre = off -> length bs = len ->
  field off len (pre ++ bs ++ post) = be_value bs.
Proof.
  intros Hp Hb. unfold field.
  rewrite drop_app_length' by done. by rewrite take_app_length'.
Qed.

Lemma be_value_u32 x : is_u32 x -> be_value (be_bytes 4 x) = x.
Proof. intros Hx. rewrite be_value_be_bytes. by apply Z.mod_small. Qed.

Lemma be_value_u64 x : is_u64 x -> be_value (be_bytes 8 x) = x.
Proof. intros Hx. rewrite be_value_be_bytes. by apply Z.mod_small. Qed.

(** Decoding a sequence of eight big-endian fields of the header's widths
    gives the fields back. *)
Lemma decode_fields m v w h f t s r :
  is_u32 m -> is_u32 v -> is_u32 w -> is_u32 h -> is_u32 f -> is_u64 t ->
  is_u32 s -> is_u32 r ->
  decode (be_bytes 4 m ++ be_bytes 4 v ++ be_bytes 4 w ++ be_bytes 4 h ++
          be_bytes 4 f ++ be_bytes 8 t ++ be_bytes 4 s ++ be_bytes 4 r)
  = inr {| magic := m; version := v; width := w; height := h; format := f;
           timestamp := t; size := s; reserved := r |}.
Proof.
  intros Hm Hv Hw Hh Hf Ht Hs Hr.
  set (M := be_bytes 4 m). set (V := be_bytes 4 v). set (W := be_bytes 4 w).
  set (H := be_bytes 4 h). set (F := be_bytes 4 f). set (T := be_bytes 8 t).
  set (S := be_bytes 4 s). set (R := be_bytes 4 r).
  assert (LM : length M = 4%nat) by apply length_be_bytes.
  assert (LV : length V = 4%nat) by apply length_be_bytes.
  assert (LW : length W = 4%nat) by apply length_be_bytes.
  assert (LH : length H = 4%nat) by apply length_be_bytes.
  assert (LF : length F = 4%nat) by apply length_be_bytes.
  assert (LT : length T = 8%nat) by apply length_be_bytes.
  assert (LS : length S = 4%nat) by apply length_be_bytes.
  assert (LR : length R = 4%nat) by apply length_be_bytes.
  unfold decode.
  replace (length (M ++ V ++ W ++ H ++ F ++ T ++ S ++ R)) with 36%nat
    by (rewrite !length_app; lia).
  cbn [Nat.ltb Nat.leb].
  assert (E0 : field 0 4 (M ++ V ++ W ++ H ++ F ++ T ++ S ++ R) = m).
  { transitivity (be_value M); [by apply (field_at [] M) | by apply be_value_u32]. }
  assert (E1 : field 4 4 (M ++ V ++ W ++ H ++ F ++ T ++ S ++ R) = v).
  { rewrite (field_at M V) by done. by apply be_value_u32. }
  assert (E2 : field 8 4 (M ++ V ++ W ++ H ++ F ++ T ++ S ++ R) = w).
  { rewrite (app_assoc M).
    rewrite (field_at (M ++ V) W) by (rewrite ?length_app; lia || done).
    by apply be_value_u32. }
  assert (E3 : field 12 4 (M ++ V ++ W ++ H ++ F ++ T ++ S ++ R) = h).
  { rewrite (app_assoc M), (app_assoc (M ++ V)).
    rewrite (field_at ((M ++ V) ++ W) H) by (rewrite ?length_app; lia || done).
    by apply be_value_u32. }
  assert (E4 : field 16 4 (M ++ V ++ W ++ H ++ F ++ T ++ S ++ R) = f).
  { rewrite (app_assoc M), (app_assoc (M ++ V)), (app_assoc ((M ++ V) ++ W)).
    rewrite (field_at (((M ++ V) ++ W) ++ H) F)
      by (rewrite ?length_app; lia || done).
    by apply be_value_u32. }
  assert (E5 : field 20 8 (M ++ V ++ W ++ H ++ F ++ T ++ S ++ R) = t).
  { rewrite (app_assoc M), (app_assoc (M ++ V)), (app_assoc ((M ++ V) ++ W)),
      (app_assoc (((M ++ V) ++ W) ++ H)).
    rewrite (field_at ((((M ++ V) ++ W) ++ H) ++ F) T)
      by (rewrite ?length_app; lia || done).
    by apply be_value_u64. }
  assert (E6 : field 28 4 (M ++ V ++ W ++ H ++ F ++ T ++ S ++ R) = s).
  { rewrite (app_assoc M), (app_assoc (M ++ V)), (app_assoc ((M ++ V) ++ W)),
      (app_assoc (((M ++ V) ++ W) ++ H)),
      (app_assoc ((((M ++ V) ++ W) ++ H) ++ F)).
    rewrite (field_at (((((M ++ V) ++ W) ++ H) ++ F) ++ T) S)
      by (rewrite ?length_app; lia || done).
    by apply be_value_u32. }
  assert (E7 : field 32 4 (M ++ V ++ W ++ H ++ F ++ T ++ S ++ R) = r).
  { rewrite (app_assoc M), (app_assoc (M ++ V)), (app_assoc ((M ++ V) ++ W)),
      (app_assoc (((M ++ V) ++ W) ++ H)),
      (app_assoc ((((M ++ V) ++ W) ++ H) ++ F)),
      (app_assoc (((((M ++ V) ++ W) ++ H) ++ F) ++ T)).
    rewrite <- (app_nil_r R).
    rewrite (field_at ((((((M ++ V) ++ W) ++ H) ++ F) ++ T) ++ S) R [])
      by (rewrite ?length_app; lia || done).
    by apply be_value_u32. }
  by rewrite E0, E1, E2, E3, E4, E5, E6, E7.
Qed.

(** Decoding inverts the senders' conversion on well-formed headers. *)
Lemma decode_encode cpu h : wf h -> decode (encode cpu h) = inr h.
Proof.
  intros (Hm & Hv & Hw & Hh & Hf & Ht & Hs & Hr).
  rewrite encode_be, decode_fields by assumption.
  by destruct h.
Qed.

(** The bytes the two senders put on the wire decode to the values they
    were given: the greeting with size 0, a frame with its size. *)
Lemma decode_greeting cpu w h now :
  is_u32 w -> is_u32 h -> is_u64 now ->
  decode (image cpu (display_info cpu w h now)) = inr (greeting_fields w h now).
Proof.
  intros Hw Hh Hn. rewrite display_info_to_wire.
  apply (decode_encode cpu).
  unfold wf, is_u32, is_u64 in *; cbn.
  unfold IPDISP_MAGIC, IPDISP_VERSION, IPDISP_FORMAT_RGBA32. lia.
Qed.

Lemma decode_frame cpu w h now sz :
  is_u32 w -> is_u32 h -> is_u64 now -> is_u32 sz ->
  decode (image cpu (frame cpu w h now sz)) = inr (frame_fields w h now sz).
Proof.
  intros Hw Hh Hn Hs. rewrite frame_to_wire.
  apply (decode_encode cpu).
  unfold wf, is_u32, is_u64 in *; cbn.
  unfold IPDISP_MAGIC, IPDISP_VERSION, IPDISP_FORMAT_RGBA32. lia.
Qed.

End HeaderFacts.

(** ** The client list *)

Section ClientList.
Implicit Types (c : ipdisp_client) (cl : list ipdisp_client).

(** The counting loop counts the entries with [active == true]. *)
Lemma client_count_filter cl :
  client_count cl = Z.of_nat (length (filter is_active cl)).
Proof.
  induction cl as [|c cl IH]; [done|].
  cbn [client_count]. rewrite filter_cons, IH.
  destruct (decide (is_active c)) as [Ha|Hn]; unfold is_active in *.
  - rewrite Ha. cbn [length]. lia.
  - destruct (active c); [done | lia].
Qed.

Lemma client_count_nonneg cl : 0 <= client_count cl.
Proof. rewrite client_count_filter. lia. Qed.

Lemma client_count_app cl1 cl2 :
  client_count (cl1 ++ cl2) = client_count cl1 + client_count cl2.
Proof. rewrite !client_count_filter, filter_app, length_app. lia. Qed.

(** The cleanup loop keeps the active entries and releases the sockets of
    the others. *)
Lemma cleanup_loop_filter cl :
  cleanup_loop cl =
    (filter is_active cl, map sock (filter is_inactive cl)).
Proof.
  induction cl as [|c cl IH]; [done|].
  cbn [cleanup_loop]. rewrite IH, !filter_cons.
  destruct (decide (is_active c)) as [Ha|Hn],
           (decide (is_inactive c)) as [Hi|Hi];
    unfold is_active, is_inactive in *; destruct (active c); done.
Qed.

Lemma client_count_filter_active cl :
  client_count (filter is_active cl) = client_count cl.
Proof.
  rewrite !client_count_filter. f_equal. f_equal.
  apply list_filter_filter_l. done.
Qed.

Lemma cleanup_registry_trans b cl :
  registry_trans b OpCleanup cl (filter is_active cl).
Proof.
  induction cl as [|c cl IH]; [constructor|].
  rewrite filter_cons. destruct (decide (is_active c)) as [Ha|Hn].
  - by apply rt_stay.
  - apply rt_remove; [done| |done].
    unfold is_active in Hn. by destruct (active c).
Qed.

Lemma registry_trans_refl b o cl : registry_trans b o cl cl.
Proof. induction cl; by constructor. Qed.

Lemma registry_trans_register b cl c :
  active c = true -> registry_trans b OpRegister cl (cl ++ [c]).
Proof. intros Hc. induction cl; simpl; by constructor. Qed.

Lemma registry_trans_shutdown cl : registry_trans true OpShutdown cl [].
Proof. induction cl; [constructor | by apply rt_shutdown]. Qed.

Lemma registry_trans_weaken o cl cl' :
  registry_trans false o cl cl' -> registry_trans true o cl cl'.
Proof. induction 1; try discriminate; by constructor. Qed.

(** Only the registration of a new connection makes the number of active
    entries grow. *)
Lemma registry_trans_no_resurrection b o cl cl' :
  registry_trans b o cl cl' ->
  o <> OpRegister ->
  client_count cl' <= client_count cl.
Proof.
  induction 1; intros Ho; cbn [client_count active set_inactive];
    try specialize (IHregistry_trans Ho);
    repeat match goal with |- context [active ?c] => destruct (active c) end;
    try lia; done.
Qed.


End ClientList.

(** ** The broadcast loop *)

Section SendLoop.
Variables (rets : nat -> Z) (msg : list Z) (total : Z).
Implicit Types (c : ipdisp_client) (cl : list ipdisp_client).

(** Name the three results of the loop on the rest of the list. *)
Ltac case_rest :=
  match goal with
  | |- context [send_frame_loop ?r ?m ?t (S ?i) ?l] =>
      destruct (send_frame_loop r m t (S i) l) as [[rest' calls] sent]
  end.

Lemma send_frame_loop_cons i c cl :
  send_frame_loop rets msg total i (c :: cl) =
    let '(rest', calls, sent) := send_frame_loop rets msg total (S i) cl in
    if active c then
      ({| sock := sock c; addr := addr c;
          active := bool_decide (¬ send_failed (rets i) total) |} :: rest',
       {| call_sock := sock c; call_msg := msg; call_len := total;
          call_ret := rets i |} :: calls,
       if decide (send_failed (rets i) total) then sent else sent + 1)
    else (c :: rest', calls, sent).
Proof.
  cbn [send_frame_loop].
  case_rest.
  destruct c as [sk a [|]]; cbn [active negb sock addr]; [|done].
  unfold set_inactive; cbn [sock addr].
  destruct (Z.ltb_spec (rets i) 0) as [Hlt|Hge].
  - rewrite decide_True by (by left).
    rewrite bool_decide_eq_false_2; [done|]. intros Hn; apply Hn; by left.
  - destruct (Z.eqb_spec (rets i) total) as [He|Hne]; cbn [negb].
    + rewrite decide_False by (unfold send_failed; lia).
      rewrite bool_decide_eq_true_2; [done|]. unfold send_failed; lia.
    + rewrite decide_True by (by right).
      rewrite bool_decide_eq_false_2; [done|]. intros Hn; apply Hn; by right.
Qed.

Lemma send_frame_loop_length i cl :
  length (send_frame_loop rets msg total i cl).1.1 = length cl.
Proof.
  revert i; induction cl as [|c cl IH]; intros i; [done|].
  rewrite send_frame_loop_cons. specialize (IH (S i)).
  case_rest.
  destruct (active c); simpl in *; by rewrite IH.
Qed.

(** The entry at position [j]: unchanged when it was inactive, and
    otherwise decided by the send made to it and by nothing else. *)
Lemma send_frame_loop_lookup i cl j c :
  cl !! j = Some c ->
  (send_frame_loop rets msg total i cl).1.1 !! j =
    Some (if active c then after_send (rets (i + j)%nat) total c else c).
Proof.
  revert i j; induction cl as [|c0 cl IH]; intros i j Hj; [done|].
  rewrite send_frame_loop_cons.
  destruct j as [|j]; simpl in Hj.
  - injection Hj as ->. rewrite Nat.add_0_r.
    case_rest.
    destruct c as [sk a [|]]; cbn [active]; [|done]. simpl.
    unfold after_send, set_inactive; cbn [sock addr].
    destruct (decide (send_failed (rets i) total)) as [Hf|Hf].
    + rewrite bool_decide_eq_false_2; [done|]. by intros Hn.
    + by rewrite bool_decide_eq_true_2.
  - specialize (IH (S i) j Hj).
    replace (i + S j)%nat with (S i + j)%nat by lia.
    case_rest.
    destruct (active c0); simpl in *; exact IH.
Qed.

(** Every active entry is sent the whole message, whatever the sends to
    the other entries return. *)
Lemma send_frame_loop_calls i cl j c :
  cl !! j = Some c -> active c = true ->
  {| call_sock := sock c; call_msg := msg; call_len := total;
     call_ret := rets (i + j)%nat |}
    ∈ (send_frame_loop rets msg total i cl).1.2.
Proof.
  revert i j; induction cl as [|c0 cl IH]; intros i j Hj Ha; [done|].
  rewrite send_frame_loop_cons.
  destruct j as [|j]; simpl in Hj.
  - injection Hj as ->. rewrite Nat.add_0_r.
    case_rest.
    rewrite Ha. simpl. apply list_elem_of_here.
  - specialize (IH (S i) j Hj Ha).
    replace (i + S j)%nat with (S i + j)%nat by lia.
    case_rest.
    destruct (active c0); simpl in *; [by apply list_elem_of_further | done].
Qed.

(** The calls made: one per active entry, in list order, each with the
    whole message. *)
Lemma send_frame_loop_calls_to i cl :
  map (fun call => (call_sock call, call_msg call, call_len call))
      (send_frame_loop rets msg total i cl).1.2
  = map (fun c => (sock c, msg, total)) (filter is_active cl).
Proof.
  revert i; induction cl as [|c cl IH]; intros i; [done|].
  rewrite send_frame_loop_cons, filter_cons. specialize (IH (S i)).
  case_rest.
  destruct (decide (is_active c)) as [Ha|Hn]; unfold is_active in *.
  - rewrite Ha. simpl in *. by rewrite IH.
  - destruct (active c); done.
Qed.

Lemma send_frame_loop_trans b i cl :
  registry_trans b OpSendFrame cl (send_frame_loop rets msg total i cl).1.1.
Proof.
  revert i; induction cl as [|c cl IH]; intros i; [constructor|].
  rewrite send_frame_loop_cons. specialize (IH (S i)).
  case_rest.
  destruct c as [sk a [|]]; cbn [active sock addr]; simpl in *.
  - destruct (decide (send_failed (rets i) total)) as [Hf|Hf].
    + rewrite bool_decide_eq_false_2 by (by intros Hn).
      by apply (rt_demote b OpSendFrame {| sock := sk; addr := a; active := true |}).
    + rewrite bool_decide_eq_true_2 by done. by apply rt_stay.
  - by apply rt_stay.
Qed.

(** [clients_sent] counts the entries that are active after the loop and
    were so before; none when it is zero. *)
Lemma send_frame_loop_sent_nonneg i cl :
  0 <= (send_frame_loop rets msg total i cl).2.
Proof.
  revert i; induction cl as [|c cl IH]; intros i; [done|].
  rewrite send_frame_loop_cons. specialize (IH (S i)).
  case_rest.
  destruct (active c); simpl in *; [|done].
  destruct (decide _); lia.
Qed.

Lemma send_frame_loop_sent i cl :
  (send_frame_loop rets msg total i cl).2 =
    client_count (send_frame_loop rets msg total i cl).1.1.
Proof.
  revert i; induction cl as [|c cl IH]; intros i; [done|].
  rewrite send_frame_loop_cons. specialize (IH (S i)).
  case_rest.
  destruct c as [sk a [|]]; cbn [active sock addr]; simpl in *.
  - destruct (decide (send_failed (rets i) total)) as [Hf|Hf].
    + rewrite bool_decide_eq_false_2 by (by intros Hn). lia.
    + rewrite bool_decide_eq_true_2 by done. lia.
  - lia.
Qed.

End SendLoop.

(** ** The operations *)

Section Operations.
Variables (cpu : byte_order).
Implicit Types (s : state) (c : ipdisp_client).

Lemma send_frame_empty now rets data size s :
  clients (idev s) = [] ->
  ipdisp_network_send_frame cpu now rets data size s = (0, s).
Proof. unfold ipdisp_network_send_frame. by intros ->. Qed.

Lemma send_frame_nonempty now rets data size s :
  clients (idev s) <> [] ->
  ipdisp_network_send_frame cpu now rets data size s =
    let r := frame_loop cpu now rets data size s in
    (r.2, let s1 := kernel_sendmsg r.1.2 (with_clients r.1.1 s) in
          if r.2 =? 0 then schedule_work s1 else s1).
Proof.
  intros Hne. unfold ipdisp_network_send_frame, frame_loop.
  destruct (clients (idev s)) as [|c0 cl] eqn:E; [done|].
  by destruct (send_frame_loop _ _ _ 0 (c0 :: cl)) as [[cl' calls] sent].
Qed.

Lemma send_frame_clients now rets data size s :
  clients (idev (ipdisp_network_send_frame cpu now rets data size s).2) =
    (frame_loop cpu now rets data size s).1.1.
Proof.
  destruct (decide (clients (idev s) = [])) as [E|E].
  - rewrite send_frame_empty by done. unfold frame_loop. by rewrite E.
  - rewrite send_frame_nonempty by done. cbn zeta.
    by destruct (_ =? 0).
Qed.

Lemma send_frame_wire now rets data size s :
  wire (kern (ipdisp_network_send_frame cpu now rets data size s).2) =
    wire (kern s) ++ (frame_loop cpu now rets data size s).1.2.
Proof.
  destruct (decide (clients (idev s) = [])) as [E|E].
  - rewrite send_frame_empty by done. unfold frame_loop. rewrite E.
    simpl. by rewrite app_nil_r.
  - rewrite send_frame_nonempty by done. cbn zeta.
    by destruct (_ =? 0).
Qed.

Lemma send_frame_released now rets data size s :
  released (kern (ipdisp_network_send_frame cpu now rets data size s).2) =
    released (kern s).
Proof.
  destruct (decide (clients (idev s) = [])) as [E|E].
  - by rewrite send_frame_empty.
  - rewrite send_frame_nonempty by done. cbn zeta.
    by destruct (_ =? 0).
Qed.

Lemma cleanup_clients_eq s :
  ipdisp_network_cleanup_clients s =
    sock_release_all (map sock (filter is_inactive (clients (idev s))))
      (with_clients (filter is_active (clients (idev s))) s).
Proof.
  unfold ipdisp_network_cleanup_clients. by rewrite cleanup_loop_filter.
Qed.

Lemma send_display_info_idev now ret c s :
  idev (ipdisp_network_send_display_info cpu now ret c s).2 = idev s.
Proof.
  unfold ipdisp_network_send_display_info.
  by destruct (negb (ret =? PacketHeader.sizeof)).
Qed.

Lemma send_display_info_released now ret c s :
  released (kern (ipdisp_network_send_display_info cpu now ret c s).2) =
    released (kern s).
Proof.
  unfold ipdisp_network_send_display_info.
  by destruct (negb (ret =? PacketHeader.sizeof)).
Qed.

Lemma send_display_info_wire now ret c s :
  wire (kern (ipdisp_network_send_display_info cpu now ret c s).2) =
    wire (kern s) ++
    [{| call_sock := sock c;
        call_msg := PacketHeader.image cpu
          (PacketHeader.display_info cpu (width (idev s)) (height (idev s)) now);
        call_len := PacketHeader.sizeof;
        call_ret := ret |}].
Proof.
  unfold ipdisp_network_send_display_info.
  by destruct (negb (ret =? PacketHeader.sizeof)).
Qed.

Lemma register_client_full sk a ok s :
  IPDISP_MAX_CLIENTS <= client_count (clients (idev s)) ->
  register_client sk a ok s = (None, sock_release sk (printk WarnMaxClients s)).
Proof.
  intros H. unfold register_client.
  destruct (Z.geb_spec (client_count (clients (idev s))) IPDISP_MAX_CLIENTS);
    [done | lia].
Qed.

Lemma register_client_room sk a s :
  client_count (clients (idev s)) < IPDISP_MAX_CLIENTS ->
  register_client sk a true s =
    (Some {| sock := sk; addr := a; active := true |},
     with_clients
       (clients (idev s) ++ [{| sock := sk; addr := a; active := true |}]) s).
Proof.
  intros H. unfold register_client.
  destruct (Z.geb_spec (client_count (clients (idev s))) IPDISP_MAX_CLIENTS);
    [lia | done].
Qed.

(** What admission does to the client list: nothing, or one active entry
    more when fewer than [IPDISP_MAX_CLIENTS] were active. *)
Lemma register_client_clients sk a ok s :
  clients (idev (register_client sk a ok s).2) = clients (idev s) \/
  (client_count (clients (idev s)) < IPDISP_MAX_CLIENTS /\
   clients (idev (register_client sk a ok s).2) =
     clients (idev s) ++ [{| sock := sk; addr := a; active := true |}]).
Proof.
  unfold register_client.
  destruct (Z.geb_spec (client_count (clients (idev s))) IPDISP_MAX_CLIENTS);
    [by left|].
  destruct ok; [right | by left]. split; [lia | done].
Qed.

Lemma pipe_update_clients fb s s' :
  ipdisp_pipe_update fb s = Some s' -> clients (idev s') = clients (idev s).
Proof.
  unfold ipdisp_pipe_update, queue_stream_work. intros H.
  repeat match type of H with
         | context [match ?x with _ => _ end] => destruct x eqn:?
         end; simplify_eq; done.
Qed.

(** Every operation changes the entries of the client list by the
    transitions of [registry_trans] only; the forced removal is needed for
    [ipdisp_network_cleanup] alone. *)
Lemma step_registry_trans o s s' :
  step o s s' ->
  registry_trans (is_shutdown o) o (clients (idev s)) (clients (idev s')).
Proof.
  destruct 1 as [sk a ok s|sk ret s|cpu' now ret c s|s|cpu' now rets data size s
                 |s|s|fb s s' Hup|s]; cbn [is_shutdown].
  - destruct (register_client_clients sk a ok (printk (InfoNewClient a) s)) as [E|[_ E]];
      cbn [snd] in *; rewrite E; cbn [printk idev].
    + apply registry_trans_refl.
    + by apply registry_trans_register.
  - apply registry_trans_refl.
  - unfold ipdisp_network_send_display_info.
    destruct (negb _); apply registry_trans_refl.
  - rewrite cleanup_clients_eq. apply cleanup_registry_trans.
  - unfold ipdisp_network_send_frame.
    destruct (clients (idev s)) as [|c0 cl] eqn:E.
    + cbn [snd]. rewrite E. constructor.
    + pose proof (send_frame_loop_trans rets
        (frame_message cpu' (idev s) now data size) (frame_total size)
        false 0 (c0 :: cl)) as Ht.
      destruct (send_frame_loop _ _ _ 0 (c0 :: cl)) as [[cl' calls] sent].
      cbn [fst snd] in *. by destruct (sent =? 0).
  - unfold ipdisp_pipe_enable, queue_stream_work. cbn.
    destruct (stream_wq (idev s)); apply registry_trans_refl.
  - apply registry_trans_refl.
  - rewrite (pipe_update_clients _ _ _ Hup). apply registry_trans_refl.
  - unfold ipdisp_network_cleanup.
    destruct (listen_sock (idev s)); cbn; apply registry_trans_shutdown.
Qed.

Lemma step_client_count o s s' :
  step o s s' ->
  client_count (clients (idev s)) <= IPDISP_MAX_CLIENTS ->
  client_count (clients (idev s')) <= IPDISP_MAX_CLIENTS.
Proof.
  intros Hstep Hinv.
  destruct (decide (o = OpRegister)) as [->|Ho].
  - inversion Hstep as [sk a ok s0 | | | | | | | |]; subst.
    destruct (register_client_clients sk a ok (printk (InfoNewClient a) s)) as [E|[Hlt E]];
      cbn [snd] in *; rewrite E; cbn [printk idev] in *; [done|].
    rewrite client_count_app. cbn. lia.
  - destruct (decide (o = OpShutdown)) as [->|Hs].
    + inversion Hstep; subst. unfold ipdisp_network_cleanup.
      destruct (listen_sock (idev s)); cbn; unfold IPDISP_MAX_CLIENTS; lia.
    + pose proof (step_registry_trans _ _ _ Hstep) as Ht.
      pose proof (registry_trans_no_resurrection _ _ _ _ Ht Ho). lia.
Qed.

Lemma reachable_client_count s :
  reachable s -> client_count (clients (idev s)) <= IPDISP_MAX_CLIENTS.
Proof.
  induction 1 as [w h l|o s s' _ IH Hstep].
  - cbn. unfold IPDISP_MAX_CLIENTS. lia.
  - by eapply step_client_count.
Qed.

End Operations.

(** ** Reachability *)

Lemma thread_iteration_reachable cpu inp s :
  reachable s -> reachable (ipdisp_network_thread_iteration cpu inp s).
Proof.
  intros Hs. unfold ipdisp_network_thread_iteration.
  destruct (listen_sock (idev s)); [|done].
  destruct (accept_res inp) as [ret|sk]; [done|].
  destruct (peername_res inp) as [ret|a].
  { eapply reachable_step; [exact Hs | apply step_peername]. }
  assert (Ha : reachable (register_client sk a (kzalloc_ok inp) (printk (InfoNewClient a) s)).2).
  { eapply reachable_step; [exact Hs | apply step_register]. }
  destruct (register_client sk a (kzalloc_ok inp) (printk (InfoNewClient a) s))
    as [[client|] s1]; cbn [snd] in Ha; [|done].
  eapply reachable_step; [|apply step_cleanup].
  eapply reachable_step; [exact Ha | apply step_greeting].
Qed.

Lemma stream_work_reachable cpu now rets s :
  reachable s -> reachable (ipdisp_stream_work_func cpu now rets s).
Proof.
  intros Hs. unfold ipdisp_stream_work_func.
  destruct (framebuffer (idev s)); [|done].
  destruct (negb _); [done|].
  eapply reachable_step; [exact Hs | apply step_send_frame].
Qed.

Lemma booted_reachable : reachable booted.
Proof. apply reachable_init. Qed.

Lemma one_client_reachable : reachable one_client.
Proof. apply thread_iteration_reachable, booted_reachable. Qed.

Lemma four_clients_reachable : reachable four_clients.
Proof.
  unfold four_clients. cbn [foldl].
  do 4 apply thread_iteration_reachable. apply booted_reachable.
Qed.

(** ** The packet header on the wire *)

(** C1, evaluated on the code.  Whatever the CPU, the time, the client and
    the result of the send, the greeting is sent with a header image of
    [sizeof(struct ipdisp_packet_header)] bytes, and that is 36 (five
    4-byte fields, one 8-byte field, two 4-byte fields, packed), not the
    32 bytes of [IPDISP_HEADER_SIZE]. *)
Theorem C1_header_length_is_36 cpu now ret c s :
  let call :=
    {| call_sock := sock c;
       call_msg := PacketHeader.image cpu
         (PacketHeader.display_info cpu (width (idev s)) (height (idev s)) now);
       call_len := PacketHeader.sizeof;
       call_ret := ret |} in
  wire (kern (ipdisp_network_send_display_info cpu now ret c s).2) =
    wire (kern s) ++ [call] /\
  length (call_msg call) = 36%nat /\
  call_len call = 36 /\
  call_len call <> IPDISP_HEADER_SIZE.
Proof.
  cbn zeta. split; [apply send_display_info_wire|].
  cbn [call_msg call_len]. split; [apply HeaderFacts.length_image|].
  split; [done|]. unfold PacketHeader.sizeof, IPDISP_HEADER_SIZE. lia.
Qed.

(** The other half of C1 holds: the fields are in network order and the
    first two are the protocol constants, in the greeting and in a frame. *)
Lemma header_fields_big_endian cpu w h now sz :
  PacketHeader.image cpu (PacketHeader.display_info cpu w h now) =
    be_bytes 4 IPDISP_MAGIC ++ be_bytes 4 IPDISP_VERSION ++
    be_bytes 4 w ++ be_bytes 4 h ++ be_bytes 4 IPDISP_FORMAT_RGBA32 ++
    be_bytes 8 now ++ be_bytes 4 0 ++ be_bytes 4 0 /\
  PacketHeader.image cpu (PacketHeader.frame cpu w h now sz) =
    be_bytes 4 IPDISP_MAGIC ++ be_bytes 4 IPDISP_VERSION ++
    be_bytes 4 w ++ be_bytes 4 h ++ be_bytes 4 IPDISP_FORMAT_RGBA32 ++
    be_bytes 8 now ++ be_bytes 4 sz ++ be_bytes 4 0.
Proof.
  split; [apply HeaderFacts.image_display_info | apply HeaderFacts.image_frame].
Qed.

(** C6.  An iteration of the accept loop that admits a connection sends
    one message to the new socket: the magic and version constants, the
    device's width and height, format 0 and size 0 (and the time stamp and
    the reserved word), each in network order, and nothing after them. *)
Theorem C6_greeting_contents cpu inp s l sk a :
  listen_sock (idev s) = Some l ->
  accept_res inp = Accepted sk ->
  peername_res inp = PeerName a ->
  kzalloc_ok inp = true ->
  client_count (clients (idev s)) < IPDISP_MAX_CLIENTS ->
  wire (kern (ipdisp_network_thread_iteration cpu inp s)) =
    wire (kern s) ++
    [{| call_sock := sk;
        call_msg :=
          be_bytes 4 IPDISP_MAGIC ++ be_bytes 4 IPDISP_VERSION ++
          be_bytes 4 (width (idev s)) ++ be_bytes 4 (height (idev s)) ++
          be_bytes 4 IPDISP_FORMAT_RGBA32 ++
          be_bytes 8 (greeting_time inp) ++
          be_bytes 4 0 ++ be_bytes 4 0;
        call_len := PacketHeader.sizeof;
        call_ret := greeting_ret inp |}].
Proof.
  intros Hl Hacc Hpeer Hok Hroom.
  unfold ipdisp_network_thread_iteration. rewrite Hl, Hacc, Hpeer, Hok.
  rewrite register_client_room by exact Hroom.
  rewrite cleanup_clients_eq. cbn [sock_release_all kern wire with_clients].
  rewrite send_display_info_wire. cbn [with_clients printk idev kern wire
    width height sock].
  by rewrite HeaderFacts.image_display_info.
Qed.

Lemma C6_greeting_contents_witness :
  wire (kern (ipdisp_network_thread_iteration LittleEndian
                (connection 1%nat 36) booted)) =
    [{| call_sock := 1%nat;
        call_msg := [73; 80; 68; 83;  0; 0; 0; 1;  0; 0; 7; 128;
                     0; 0; 4; 56;  0; 0; 0; 0;
                     0; 0; 0; 0; 0; 0; 3; 232;  0; 0; 0; 0;  0; 0; 0; 0];
        call_len := 36;
        call_ret := 36 |}].
Proof.
  apply (C6_greeting_contents LittleEndian (connection 1%nat 36) booted
           100%nat 1%nat (peer 1)); try reflexivity.
Defined.

(** C8.  For every header whose fields are in the range of their C types,
    decoding the bytes the senders' conversion produces gives the header
    back, field for field, on either CPU. *)
Theorem C8_header_roundtrip cpu h :
  PacketHeader.wf h ->
  PacketHeader.decode (PacketHeader.encode cpu h) = inr h.
Proof. apply HeaderFacts.decode_encode. Qed.

Lemma C8_header_roundtrip_witness :
  PacketHeader.decode
    (PacketHeader.encode LittleEndian
       (PacketHeader.greeting_fields 1920 1080 1000)) =
    inr (PacketHeader.greeting_fields 1920 1080 1000) /\
  PacketHeader.decode
    (PacketHeader.encode BigEndian
       (PacketHeader.frame_fields 1920 1080 1000 8294400)) =
    inr (PacketHeader.frame_fields 1920 1080 1000 8294400).
Proof.
  split; apply C8_header_roundtrip;
    unfold PacketHeader.wf, is_u32, is_u64; cbn;
    unfold IPDISP_MAGIC, IPDISP_VERSION, IPDISP_FORMAT_RGBA32; lia.
Defined.

(** ** Admission *)

(** C2.  In every reachable state at most [IPDISP_MAX_CLIENTS] entries of
    the client list are active; and when that many are, an iteration of the
    accept loop that accepted a connection and read its peer address adds no
    entry: the list is the same, the new socket is released and nothing is
    sent. *)
Theorem C2_active_clients_bounded s :
  reachable s ->
  Z.of_nat (length (filter is_active (clients (idev s)))) <= IPDISP_MAX_CLIENTS /\
  forall cpu inp l sk a,
    listen_sock (idev s) = Some l ->
    accept_res inp = Accepted sk ->
    peername_res inp = PeerName a ->
    Z.of_nat (length (filter is_active (clients (idev s)))) = IPDISP_MAX_CLIENTS ->
    let s' := ipdisp_network_thread_iteration cpu inp s in
    (register_client sk a (kzalloc_ok inp) (printk (InfoNewClient a) s)).1 = None /\
    clients (idev s') = clients (idev s) /\
    released (kern s') = released (kern s) ++ [sk] /\
    wire (kern s') = wire (kern s) /\
    klog (kern s') = klog (kern s) ++ [InfoNewClient a; WarnMaxClients].
Proof.
  intros Hs. split.
  { rewrite <- client_count_filter. by apply reachable_client_count. }
  intros cpu inp l sk a Hl Hacc Hpeer Hfull s'. subst s'.
  rewrite <- client_count_filter in Hfull.
  unfold ipdisp_network_thread_iteration. rewrite Hl, Hacc, Hpeer.
  rewrite register_client_full by (cbn [printk idev]; lia).
  cbn. by rewrite <- app_assoc.
Qed.

Lemma C2_active_clients_bounded_witness :
  Z.of_nat (length (filter is_active (clients (idev four_clients)))) <= 4 /\
  let s' := ipdisp_network_thread_iteration LittleEndian (connection 5%nat 36)
              four_clients in
  clients (idev s') = clients (idev four_clients) /\
  released (kern s') = [5%nat] /\
  wire (kern s') = wire (kern four_clients).
Proof.
  destruct (C2_active_clients_bounded four_clients four_clients_reachable)
    as [Hle Hrej].
  split; [exact Hle|].
  destruct (Hrej LittleEndian (connection 5%nat 36) 100%nat 5%nat (peer 5)
              eq_refl eq_refl eq_refl eq_refl) as (_ & Hc & Hr & Hw & _).
  cbn zeta. split; [exact Hc|]. split; [exact Hr | exact Hw].
Defined.

(** C10.  When [kernel_getpeername] fails on an accepted connection, the
    iteration releases the socket and does nothing else: the device, and
    with it the client list, is unchanged and nothing is sent. *)
Theorem C10_peername_failure_rejects cpu inp s l sk ret :
  listen_sock (idev s) = Some l ->
  accept_res inp = Accepted sk ->
  peername_res inp = PeerNameError ret ->
  let s' := ipdisp_network_thread_iteration cpu inp s in
  idev s' = idev s /\
  released (kern s') = released (kern s) ++ [sk] /\
  wire (kern s') = wire (kern s) /\
  klog (kern s') = klog (kern s) ++ [WarnPeerName ret].
Proof.
  intros Hl Hacc Hpeer. cbn zeta.
  unfold ipdisp_network_thread_iteration. by rewrite Hl, Hacc, Hpeer.
Qed.

Lemma C10_peername_failure_rejects_witness :
  let s' := ipdisp_network_thread_iteration LittleEndian
              (nameless_connection 2%nat) one_client in
  idev s' = idev one_client /\
  released (kern s') = released (kern one_client) ++ [2%nat] /\
  wire (kern s') = wire (kern one_client) /\
  klog (kern s') = klog (kern one_client) ++ [WarnPeerName (-107)].
Proof.
  apply (C10_peername_failure_rejects LittleEndian (nameless_connection 2%nat)
           one_client 100%nat 2%nat (-107)); reflexivity.
Defined.

(** C7.  When the greeting send does not return the header size, the
    iteration that admitted the connection still ends with the new entry in
    the client list, active: the send returns an error code, a warning is
    logged, the device is as it was before the send, and the cleanup that
    follows releases the sockets of inactive entries only. *)
Theorem C7_greeting_failure_keeps_client cpu inp s l sk a :
  listen_sock (idev s) = Some l ->
  accept_res inp = Accepted sk ->
  peername_res inp = PeerName a ->
  kzalloc_ok inp = true ->
  client_count (clients (idev s)) < IPDISP_MAX_CLIENTS ->
  greeting_ret inp <> PacketHeader.sizeof ->
  let client := {| sock := sk; addr := a; active := true |} in
  let registered := (register_client sk a true (printk (InfoNewClient a) s)).2 in
  let sent := ipdisp_network_send_display_info cpu (greeting_time inp)
                (greeting_ret inp) client registered in
  let s' := ipdisp_network_thread_iteration cpu inp s in
  sent.1 = (if greeting_ret inp <? 0 then greeting_ret inp else - EIO) /\
  sent.1 <> 0 /\
  idev sent.2 = idev registered /\
  clients (idev registered) = clients (idev s) ++ [client] /\
  clients (idev s') = filter is_active (clients (idev s)) ++ [client] /\
  released (kern s') =
    released (kern s) ++ map sock (filter is_inactive (clients (idev s))) /\
  klog (kern s') =
    klog (kern s) ++ [InfoNewClient a; WarnDisplayInfo (greeting_ret inp)].
Proof.
  intros Hl Hacc Hpeer Hok Hroom Hret. cbn zeta.
  unfold ipdisp_network_thread_iteration. rewrite Hl, Hacc, Hpeer, Hok.
  rewrite register_client_room by exact Hroom. cbn [snd].
  rewrite cleanup_clients_eq, send_display_info_idev.
  cbn [sock_release_all kern idev with_clients clients released klog].
  rewrite send_display_info_released.
  unfold ipdisp_network_send_display_info.
  destruct (Z.eqb_spec (greeting_ret inp) PacketHeader.sizeof) as [E|_];
    [done|]. cbn [negb fst snd].
  split; [done|]. split.
  { destruct (Z.ltb_spec (greeting_ret inp) 0); [lia | by unfold EIO]. }
  split; [done|]. split; [done|]. split.
  { rewrite filter_app. f_equal. }
  split; [|cbn; by rewrite <- app_assoc].
  rewrite filter_app. cbn [printk kern released idev with_clients clients].
  by rewrite (filter_cons_False is_inactive), filter_nil, app_nil_r.
Qed.

Lemma C7_greeting_failure_keeps_client_witness :
  let client := {| sock := 2%nat; addr := peer 2; active := true |} in
  let s' := ipdisp_network_thread_iteration LittleEndian
              (connection 2%nat (-32)) one_client in
  clients (idev s') = clients (idev one_client) ++ [client] /\
  released (kern s') = [] /\
  klog (kern s') =
    klog (kern one_client) ++ [InfoNewClient (peer 2); WarnDisplayInfo (-32)].
Proof.
  destruct (C7_greeting_failure_keeps_client LittleEndian
              (connection 2%nat (-32)) one_client 100%nat 2%nat (peer 2)
              eq_refl eq_refl eq_refl eq_refl)
    as (_ & _ & _ & _ & Hc & Hr & Hk).
  - reflexivity.
  - discriminate.
  - cbn zeta. split; [exact Hc|]. split; [exact Hr | exact Hk].
Defined.

(** ** Broadcast *)

(** C3.  In one call of [ipdisp_network_send_frame], if the send to the
    active entry at position [k] returns an error or a length other than
    header plus payload, that entry is inactive afterwards; and every other
    active entry [j] was sent the whole message, the header image followed
    by the [size] payload bytes, with the full length requested, and is
    left active or not by the result of its own send alone. *)
Theorem C3_failed_send_isolated cpu now rets data size s k ck :
  clients (idev s) !! k = Some ck ->
  active ck = true ->
  send_failed (rets k) (frame_total size) ->
  let s' := (ipdisp_network_send_frame cpu now rets data size s).2 in
  let message :=
    PacketHeader.image cpu
      (PacketHeader.frame cpu (width (idev s)) (height (idev s)) now size)
    ++ take (Z.to_nat size) data in
  clients (idev s') !! k = Some (set_inactive ck) /\
  exists calls,
    wire (kern s') = wire (kern s) ++ calls /\
    map (fun call => (call_sock call, call_msg call, call_len call)) calls =
      map (fun c => (sock c, message, frame_total size))
          (filter is_active (clients (idev s))) /\
    forall j cj,
      j <> k ->
      clients (idev s) !! j = Some cj ->
      active cj = true ->
      {| call_sock := sock cj; call_msg := message;
         call_len := frame_total size; call_ret := rets j |} ∈ calls /\
      clients (idev s') !! j =
        Some (if decide (send_failed (rets j) (frame_total size))
              then set_inactive cj else cj).
Proof.
  intros Hk Hact Hfail. cbn zeta.
  rewrite send_frame_clients, send_frame_wire. unfold frame_loop.
  split.
  { rewrite (send_frame_loop_lookup _ _ _ 0 _ k ck Hk), Hact.
    unfold after_send. by rewrite decide_True. }
  eexists. split; [reflexivity|]. split.
  { apply send_frame_loop_calls_to. }
  intros j cj _ Hj Hactj. split.
  - apply (send_frame_loop_calls rets _ _ 0 _ j cj Hj Hactj).
  - by rewrite (send_frame_loop_lookup _ _ _ 0 _ j cj Hj), Hactj.
Qed.

Lemma C3_failed_send_isolated_witness :
  let rets := fun j : nat => if (j =? 1)%nat then -32 else 40 in
  let s' := (ipdisp_network_send_frame LittleEndian 1000 rets [1; 2; 3; 4] 4
               four_clients).2 in
  clients (idev s') !! 1%nat =
    Some {| sock := 2%nat; addr := peer 2; active := false |} /\
  clients (idev s') !! 0%nat =
    Some {| sock := 1%nat; addr := peer 1; active := true |} /\
  clients (idev s') !! 3%nat =
    Some {| sock := 4%nat; addr := peer 4; active := true |}.
Proof.
  cbn zeta.
  destruct (C3_failed_send_isolated LittleEndian 1000
              (fun j : nat => if (j =? 1)%nat then -32 else 40) [1; 2; 3; 4] 4
              four_clients 1%nat
              {| sock := 2%nat; addr := peer 2; active := true |}
              eq_refl eq_refl (or_introl eq_refl))
    as (Hk & calls & _ & _ & Hothers).
  split; [exact Hk|]. split.
  - exact (proj2 (Hothers 0%nat {| sock := 1%nat; addr := peer 1; active := true |}
                    (fun E => O_S 0 E) eq_refl eq_refl)).
  - refine (proj2 (Hothers 3%nat {| sock := 4%nat; addr := peer 4; active := true |}
                     _ eq_refl eq_refl)).
    discriminate.
Defined.

Lemma send_frame_loop_sent_zero rets msg total i (cl : list ipdisp_client) :
  (forall j c, cl !! j = Some c -> active c = true ->
               send_failed (rets (i + j)%nat) total) ->
  (send_frame_loop rets msg total i cl).2 = 0.
Proof.
  revert i; induction cl as [|c0 cl IH]; intros i Hfail; [done|].
  rewrite send_frame_loop_cons.
  assert (Hrest : (send_frame_loop rets msg total (S i) cl).2 = 0).
  { apply IH. intros j c Hj Hc.
    replace (S i + j)%nat with (i + S j)%nat by lia.
    by apply (Hfail (S j) c). }
  destruct (send_frame_loop rets msg total (S i) cl) as [[rest' calls] sent].
  cbn [snd] in Hrest. subst sent.
  destruct (active c0) eqn:Ha; [|done]. cbn [snd].
  rewrite decide_True; [done|].
  specialize (Hfail 0%nat c0 eq_refl Ha). by rewrite Nat.add_0_r in Hfail.
Qed.

Lemma send_frame_loop_sent_pos rets msg total i (cl : list ipdisp_client) j c :
  cl !! j = Some c -> active c = true ->
  ~ send_failed (rets (i + j)%nat) total ->
  0 < (send_frame_loop rets msg total i cl).2.
Proof.
  revert i j; induction cl as [|c0 cl IH]; intros i j Hj Hc Hok; [done|].
  rewrite send_frame_loop_cons.
  pose proof (send_frame_loop_sent_nonneg rets msg total (S i) cl) as Hnn.
  destruct j as [|j]; simpl in Hj.
  - injection Hj as ->. rewrite Nat.add_0_r in Hok.
    destruct (send_frame_loop rets msg total (S i) cl) as [[rest' calls] sent].
    rewrite Hc. cbn [snd] in *. rewrite decide_False by done. lia.
  - replace (i + S j)%nat with (S i + j)%nat in Hok by lia.
    specialize (IH (S i) j Hj Hc Hok).
    destruct (send_frame_loop rets msg total (S i) cl) as [[rest' calls] sent].
    destruct (active c0); cbn [snd] in *; [|done].
    destruct (decide _); lia.
Qed.

(** C5.  On an empty client list [ipdisp_network_send_frame] returns 0 and
    leaves the whole state as it is: nothing is sent and no work is
    scheduled.  On a non-empty list, when no send succeeds (the send to
    every active entry returns an error or a length other than header plus
    payload, or no entry is active), it returns 0 and schedules the stream
    work once more.  When the send to some active entry succeeds, it
    returns a positive count and schedules nothing. *)
Theorem C5_broadcast_edge_cases cpu now rets data size s :
  (clients (idev s) = [] ->
   ipdisp_network_send_frame cpu now rets data size s = (0, s)) /\
  (clients (idev s) <> [] ->
   (forall k c, clients (idev s) !! k = Some c -> active c = true ->
                send_failed (rets k) (frame_total size)) ->
   (ipdisp_network_send_frame cpu now rets data size s).1 = 0 /\
   stream_work_queued
     (kern (ipdisp_network_send_frame cpu now rets data size s).2) =
     S (stream_work_queued (kern s))) /\
  (forall k c, clients (idev s) !! k = Some c -> active c = true ->
               ~ send_failed (rets k) (frame_total size) ->
   0 < (ipdisp_network_send_frame cpu now rets data size s).1 /\
   stream_work_queued
     (kern (ipdisp_network_send_frame cpu now rets data size s).2) =
     stream_work_queued (kern s)).
Proof.
  split; [apply send_frame_empty|]. split.
  - intros Hne Hfail. rewrite send_frame_nonempty by done. cbn zeta.
    cbn [fst snd]. unfold frame_loop.
    rewrite send_frame_loop_sent_zero by exact Hfail. by split.
  - intros k c Hk Hc Hok.
    assert (Hne : clients (idev s) <> []) by (by intros E; rewrite E in Hk).
    rewrite send_frame_nonempty by done. cbn zeta. cbn [fst snd].
    pose proof (send_frame_loop_sent_pos rets
      (frame_message cpu (idev s) now data size) (frame_total size) 0
      (clients (idev s)) k c Hk Hc Hok) as Hpos.
    fold (frame_loop cpu now rets data size s) in Hpos.
    split; [exact Hpos|].
    destruct (Z.eqb_spec (frame_loop cpu now rets data size s).2 0); [lia|].
    done.
Qed.

Lemma C5_broadcast_edge_cases_witness :
  ipdisp_network_send_frame LittleEndian 1000 (fun _ => 40) [1; 2; 3; 4] 4 booted
    = (0, booted) /\
  stream_work_queued (kern one_client) = 0%nat /\
  stream_work_queued
    (kern (ipdisp_network_send_frame LittleEndian 1000 (fun _ => -32)
             [1; 2; 3; 4] 4 one_client).2) = 1%nat /\
  stream_work_queued
    (kern (ipdisp_network_send_frame LittleEndian 1000 (fun _ => 40)
             [1; 2; 3; 4] 4 one_client).2) = 0%nat.
Proof.
  split; [|split; [|split]].
  - apply (C5_broadcast_edge_cases LittleEndian 1000 (fun _ => 40)
             [1; 2; 3; 4] 4 booted). reflexivity.
  - reflexivity.
  - apply (proj1 (proj2 (C5_broadcast_edge_cases LittleEndian 1000
                           (fun _ => -32) [1; 2; 3; 4] 4 one_client))).
    + discriminate.
    + intros k c _ _. left. reflexivity.
  - apply (proj2 (proj2 (C5_broadcast_edge_cases LittleEndian 1000
                           (fun _ => 40) [1; 2; 3; 4] 4 one_client))
             0%nat {| sock := 1%nat; addr := peer 1; active := true |}
             eq_refl eq_refl).
    intros [H|H]; [discriminate H | by apply H].
Defined.

(** ** The life of a client *)

(** Shutdown is not part of a client's life in the running registry:
    [ipdisp_network_cleanup] removes the clients whatever their flag, an
    active one included. *)
Lemma shutdown_removes_active_client :
  reachable one_client /\
  step OpShutdown one_client (ipdisp_network_cleanup one_client) /\
  clients (idev one_client) =
    [{| sock := 1%nat; addr := peer 1; active := true |}] /\
  clients (idev (ipdisp_network_cleanup one_client)) = [] /\
  ~ registry_trans false OpShutdown
      (clients (idev one_client))
      (clients (idev (ipdisp_network_cleanup one_client))).
Proof.
  split; [apply one_client_reachable|].
  split; [apply step_shutdown|].
  split; [reflexivity|]. split; [reflexivity|].
  intros H. inversion H; discriminate.
Qed.




(** ** The frame store *)

Lemma supplied_size_bounds fb : 0 <= supplied_size fb < 2 ^ 32.
Proof. unfold supplied_size, u32. apply Z.mod_pos_bound. lia. Qed.

(** When the product does not overflow, it is the size of the plane's
    data: [fb_height] lines of [fb_pitch0] bytes. *)
Lemma supplied_size_exact fb :
  is_u32 (fb_height fb * fb_pitch0 fb) ->
  supplied_size fb = fb_height fb * fb_pitch0 fb.
Proof. intros H. unfold supplied_size, u32. by apply Z.mod_small. Qed.

Lemma memcpy_in_bounds dst src n :
  0 <= n <= Z.of_nat (length dst) -> n <= Z.of_nat (length src) ->
  memcpy dst src n = Some (take (Z.to_nat n) src ++ drop (Z.to_nat n) dst).
Proof.
  intros [H0 Hd] Hs. unfold memcpy.
  destruct (Z.leb_spec 0 n); [|lia].
  destruct (Z.leb_spec n (Z.of_nat (length dst))); [|lia].
  destruct (Z.leb_spec n (Z.of_nat (length src))); [done | lia].
Qed.

Lemma memcpy_length dst src n dst' :
  memcpy dst src n = Some dst' -> length dst' = length dst.
Proof.
  unfold memcpy.
  destruct (Z.leb_spec 0 n); [|done].
  destruct (Z.leb_spec n (Z.of_nat (length dst))); [|done].
  destruct (Z.leb_spec n (Z.of_nat (length src))); [|done].
  intros [= <-]. rewrite length_app, length_take, length_drop. lia.
Qed.

Lemma pipe_update_fb_allocated fb s s' :
  ipdisp_pipe_update fb s = Some s' -> fb_allocated s -> fb_allocated s'.
Proof.
  unfold ipdisp_pipe_update, queue_stream_work, fb_allocated.
  intros H (buf & Hbuf & Hlen).
  repeat match type of H with
         | context [match ?x with _ => _ end] => destruct x eqn:?
         end; simplify_eq; cbn; eauto.
  all: eexists; split; [done|]; by erewrite memcpy_length.
Qed.

Lemma reachable_fb_allocated s : reachable s -> fb_allocated s.
Proof.
  induction 1 as [w h l|o s s' _ IH Hstep].
  - eexists; split; [reflexivity|]. cbn. rewrite length_replicate.
    apply Z2Nat.id. unfold u32. apply Z.mod_pos_bound. lia.
  - destruct Hstep as [sk a ok s|sk ret s|cpu' now ret c s|s
                      |cpu' now rets data size s|s|s|fb s s' Hup|s].
    + unfold register_client. cbn [printk idev].
      destruct (_ >=? _); [done|]. by destruct (negb ok).
    + done.
    + unfold fb_allocated. by rewrite send_display_info_idev.
    + by rewrite cleanup_clients_eq.
    + destruct (decide (clients (idev s) = [])) as [E|E].
      * by rewrite send_frame_empty.
      * rewrite send_frame_nonempty by done. cbn zeta. cbn [snd].
        by destruct (_ =? 0).
    + unfold ipdisp_pipe_enable, queue_stream_work. cbn.
      by destruct (stream_wq (idev s)).
    + done.
    + by eapply pipe_update_fb_allocated.
    + unfold ipdisp_network_cleanup. by destruct (listen_sock (idev s)).
Qed.

(** C9.  When [ipdisp_pipe_update] copies (streaming on, a source address,
    a supported format), with a frame buffer of [fb_size] bytes and a source
    holding the size the plane declares, it copies the smaller of the two
    sizes: that many bytes of the source replace the start of the frame
    buffer, the rest of it is kept, and the count is within both buffers,
    whatever the two sizes are. *)
Theorem C9_copy_clamped fb src dst s :
  streaming_enabled (idev s) = true ->
  vaddr fb = Some src ->
  fb_format fb = DRM_FORMAT_XRGB8888 \/ fb_format fb = DRM_FORMAT_ARGB8888 ->
  framebuffer (idev s) = Some dst ->
  Z.of_nat (length dst) = fb_size (idev s) ->
  supplied_size fb <= Z.of_nat (length src) ->
  let n := Z.min (fb_size (idev s)) (supplied_size fb) in
  copy_size (idev s) fb = n /\
  0 <= n <= Z.of_nat (length dst) /\
  n <= Z.of_nat (length src) /\
  exists s',
    ipdisp_pipe_update (Some fb) s = Some s' /\
    framebuffer (idev s') =
      Some (take (Z.to_nat n) src ++ drop (Z.to_nat n) dst) /\
    fb_size (idev s') = fb_size (idev s) /\
    length (take (Z.to_nat n) src ++ drop (Z.to_nat n) dst) = length dst.
Proof.
  intros Hon Hsrc Hfmt Hdst Hlen Hsup. cbn zeta.
  pose proof (supplied_size_bounds fb) as Hb.
  split; [done|].
  assert (Hn : 0 <= Z.min (fb_size (idev s)) (supplied_size fb)
               <= Z.of_nat (length dst)) by lia.
  assert (Hm : Z.min (fb_size (idev s)) (supplied_size fb)
               <= Z.of_nat (length src)) by lia.
  split; [exact Hn|]. split; [exact Hm|].
  unfold ipdisp_pipe_update. rewrite Hon, Hsrc, Hdst. cbn [negb].
  assert (Hf : (fb_format fb =? DRM_FORMAT_XRGB8888)
               || (fb_format fb =? DRM_FORMAT_ARGB8888) = true).
  { destruct Hfmt as [-> | ->]; reflexivity. }
  rewrite Hf. unfold copy_size. rewrite memcpy_in_bounds by assumption.
  eexists. split; [reflexivity|].
  unfold queue_stream_work. split; [|split].
  - by destruct (stream_wq _).
  - by destruct (stream_wq _).
  - rewrite length_app, length_take, length_drop. lia.
Qed.

Lemma C9_copy_clamped_witness :
  let s := ipdisp_pipe_enable (init_state 2 3 100%nat) in
  copy_size (idev s) small_fb = 16 /\
  exists s',
    ipdisp_pipe_update (Some small_fb) s = Some s' /\
    framebuffer (idev s') = Some (replicate 16 255 ++ replicate 8 0).
Proof.
  cbn zeta.
  destruct (C9_copy_clamped small_fb (replicate 16 255) (replicate 24 0)
              (ipdisp_pipe_enable (init_state 2 3 100%nat))
              eq_refl eq_refl (or_introl eq_refl) eq_refl eq_refl)
    as (Hc & _ & _ & s' & Hup & Hfb & _).
  - vm_compute. discriminate.
  - split; [exact Hc|]. exists s'. split; [exact Hup | exact Hfb].
Defined.

(** ** Sockets: none lost, none released twice *)

Lemma held_released_split (cl : list ipdisp_client) :
  map sock (filter is_active cl) ++ map sock (filter is_inactive cl)
    ≡ₚ map sock cl.
Proof.
  induction cl as [|c cl IH]; [done|].
  rewrite !filter_cons.
  destruct (decide (is_active c)) as [Ha|Hn], (decide (is_inactive c)) as [Hi|Hi];
    unfold is_active, is_inactive in *.
  - congruence.
  - cbn. by rewrite IH.
  - cbn. rewrite <- Permutation_middle. by rewrite IH.
  - by destruct (active c).
Qed.

Lemma state_eta (s : state) :
  s = {| idev := {| width := width (idev s); height := height (idev s);
                    framebuffer := framebuffer (idev s);
                    fb_size := fb_size (idev s);
                    listen_sock := listen_sock (idev s);
                    clients := clients (idev s);
                    stream_wq := stream_wq (idev s);
                    streaming_enabled := streaming_enabled (idev s) |};
         kern := {| released := released (kern s); wire := wire (kern s);
                    stream_work_queued := stream_work_queued (kern s);
                    klog := klog (kern s) |} |}.
Proof. by destruct s as [[] []]. Qed.

Lemma filter_all_active (cl : list ipdisp_client) :
  Forall is_active cl ->
  filter is_active cl = cl /\ filter is_inactive cl = [].
Proof.
  induction 1 as [|c cl Hc _ [IH1 IH2]]; [done|].
  rewrite !filter_cons, IH1, IH2.
  rewrite decide_True by done.
  rewrite decide_False; [done|].
  unfold is_active, is_inactive in *. congruence.
Qed.

Lemma filter_active_all_active (cl : list ipdisp_client) :
  Forall is_active (filter is_active cl).
Proof.
  induction cl as [|c cl IH]; [constructor|].
  rewrite filter_cons. destruct (decide (is_active c)); [by constructor | done].
Qed.

Lemma cleanup_accounting s :
  held (ipdisp_network_cleanup_clients s)
    ++ released (kern (ipdisp_network_cleanup_clients s))
  ≡ₚ held s ++ released (kern s).
Proof.
  rewrite cleanup_clients_eq. unfold held. cbn.
  rewrite (Permutation_app_comm (released (kern s))), app_assoc.
  by rewrite held_released_split.
Qed.

(** X1.  An iteration of the accept loop that accepted a connection
    accounts for its socket: afterwards the sockets in the client list
    together with the released ones are those from before and the new one,
    each as often as before; the new socket is in the list or released,
    never both and never neither, whichever branch was taken.  Without a
    listening socket, or when [kernel_accept] fails, the iteration changes
    nothing. *)
Theorem X1_accept_iteration_socket_accounting cpu inp s :
  (forall l sk,
     listen_sock (idev s) = Some l ->
     accept_res inp = Accepted sk ->
     held (ipdisp_network_thread_iteration cpu inp s)
       ++ released (kern (ipdisp_network_thread_iteration cpu inp s))
     ≡ₚ sk :: held s ++ released (kern s)) /\
  (listen_sock (idev s) = None \/ (exists ret, accept_res inp = AcceptError ret) ->
   ipdisp_network_thread_iteration cpu inp s = s).
Proof.
  split.
  - intros l sk Hl Hacc. unfold ipdisp_network_thread_iteration.
    rewrite Hl, Hacc.
    assert (Hrel : forall m,
      held (sock_release sk (printk m s))
        ++ released (kern (sock_release sk (printk m s)))
      ≡ₚ sk :: held s ++ released (kern s)).
    { intros m. unfold held. cbn.
      rewrite app_assoc, <- Permutation_cons_append. done. }
    destruct (peername_res inp) as [ret|a]; [apply Hrel|].
    unfold register_client. cbn [printk idev].
    destruct (_ >=? _); [apply Hrel|].
    destruct (kzalloc_ok inp); cbn [negb]; [|apply Hrel].
    rewrite cleanup_accounting. unfold held.
    rewrite send_display_info_idev, send_display_info_released. cbn.
    rewrite map_app. cbn. rewrite <- app_assoc. cbn.
    symmetry. apply Permutation_middle.
  - intros [Hl|[ret Hacc]]; unfold ipdisp_network_thread_iteration.
    + by rewrite Hl.
    + rewrite Hacc. by destruct (listen_sock (idev s)).
Qed.

Lemma X1_accept_iteration_socket_accounting_witness :
  held (ipdisp_network_thread_iteration LittleEndian (connection 5%nat 36)
          four_clients)
    ++ released (kern (ipdisp_network_thread_iteration LittleEndian
                         (connection 5%nat 36) four_clients))
  ≡ₚ [5; 1; 2; 3; 4]%nat.
Proof.
  exact (proj1 (X1_accept_iteration_socket_accounting LittleEndian
                  (connection 5%nat 36) four_clients)
               100%nat 5%nat eq_refl eq_refl).
Defined.

(** X2.  When [kzalloc] fails for a connection there was room for, the
    iteration releases the socket and registers nothing: the client list is
    unchanged, no greeting is sent and the error is logged. *)
Theorem X2_allocation_failure_rejects cpu inp s l sk a :
  listen_sock (idev s) = Some l ->
  accept_res inp = Accepted sk ->
  peername_res inp = PeerName a ->
  client_count (clients (idev s)) < IPDISP_MAX_CLIENTS ->
  kzalloc_ok inp = false ->
  let s' := ipdisp_network_thread_iteration cpu inp s in
  idev s' = idev s /\
  released (kern s') = released (kern s) ++ [sk] /\
  wire (kern s') = wire (kern s) /\
  klog (kern s') = klog (kern s) ++ [InfoNewClient a; ErrAllocClient].
Proof.
  intros Hl Hacc Hpeer Hroom Hok. cbn zeta.
  unfold ipdisp_network_thread_iteration, register_client.
  rewrite Hl, Hacc, Hpeer, Hok. cbn [printk idev].
  destruct (Z.geb_spec (client_count (clients (idev s))) IPDISP_MAX_CLIENTS);
    [lia|].
  cbn. by rewrite <- app_assoc.
Qed.

Lemma X2_allocation_failure_rejects_witness :
  let inp := {| accept_res := Accepted 2%nat; peername_res := PeerName (peer 2);
                kzalloc_ok := false; greeting_ret := 36;
                greeting_time := 1000 |} in
  let s' := ipdisp_network_thread_iteration LittleEndian inp one_client in
  idev s' = idev one_client /\
  released (kern s') = [2%nat] /\
  wire (kern s') = wire (kern one_client).
Proof.
  cbn zeta.
  destruct (X2_allocation_failure_rejects LittleEndian
              {| accept_res := Accepted 2%nat; peername_res := PeerName (peer 2);
                 kzalloc_ok := false; greeting_ret := 36;
                 greeting_time := 1000 |}
              one_client 100%nat 2%nat (peer 2) eq_refl eq_refl eq_refl)
    as (Hd & Hr & Hw & _); [reflexivity | reflexivity |].
  split; [exact Hd|]. split; [exact Hr | exact Hw].
Defined.

(** X3.  [ipdisp_network_cleanup_clients] leaves only active entries, namely
    the active entries of before in their order; it loses no socket and
    releases none twice; on a list without inactive entries it changes
    nothing, so that running it a second time changes nothing. *)
Theorem X3_cleanup_clients_idempotent s :
  Forall is_active (clients (idev (ipdisp_network_cleanup_clients s))) /\
  held (ipdisp_network_cleanup_clients s)
    ++ released (kern (ipdisp_network_cleanup_clients s))
  ≡ₚ held s ++ released (kern s) /\
  (Forall is_active (clients (idev s)) -> ipdisp_network_cleanup_clients s = s) /\
  ipdisp_network_cleanup_clients (ipdisp_network_cleanup_clients s)
    = ipdisp_network_cleanup_clients s.
Proof.
  assert (Hid : forall t, Forall is_active (clients (idev t)) ->
                          ipdisp_network_cleanup_clients t = t).
  { intros t Ht. rewrite cleanup_clients_eq.
    destruct (filter_all_active _ Ht) as [-> ->].
    rewrite (state_eta t) at 3. unfold sock_release_all, with_clients. cbn.
    by rewrite app_nil_r. }
  assert (Hact : Forall is_active
                   (clients (idev (ipdisp_network_cleanup_clients s)))).
  { rewrite cleanup_clients_eq. cbn. apply filter_active_all_active. }
  split; [exact Hact|]. split; [apply cleanup_accounting|].
  split; [apply Hid | by apply Hid].
Qed.

Lemma X3_cleanup_clients_idempotent_witness :
  ipdisp_network_cleanup_clients four_clients = four_clients.
Proof.
  apply (proj1 (proj2 (proj2 (X3_cleanup_clients_idempotent four_clients)))).
  repeat constructor.
Defined.

(** ** What a broadcast returns and what it leaves alone *)

Lemma send_frame_loop_same_peers rets msg total i (cl : list ipdisp_client) :
  map sock (send_frame_loop rets msg total i cl).1.1 = map sock cl /\
  map addr (send_frame_loop rets msg total i cl).1.1 = map addr cl.
Proof.
  revert i; induction cl as [|c cl IH]; intros i; [done|].
  rewrite send_frame_loop_cons. destruct (IH (S i)) as [IH1 IH2].
  destruct (send_frame_loop rets msg total (S i) cl) as [[rest' calls] sent].
  destruct (active c); cbn in *; by rewrite IH1, IH2.
Qed.

Lemma send_frame_loop_call_count rets msg total i (cl : list ipdisp_client) :
  Z.of_nat (length (send_frame_loop rets msg total i cl).1.2) = client_count cl.
Proof.
  revert i; induction cl as [|c cl IH]; intros i; [done|].
  rewrite send_frame_loop_cons. specialize (IH (S i)).
  destruct (send_frame_loop rets msg total (S i) cl) as [[rest' calls] sent].
  cbn [client_count]. destruct (active c); cbn [fst snd length] in *; lia.
Qed.

Lemma send_frame_loop_calls_shape rets msg total i (cl : list ipdisp_client) :
  Forall (fun call => call_msg call = msg /\ call_len call = total)
         (send_frame_loop rets msg total i cl).1.2.
Proof.
  revert i; induction cl as [|c cl IH]; intros i; [constructor|].
  rewrite send_frame_loop_cons. specialize (IH (S i)).
  destruct (send_frame_loop rets msg total (S i) cl) as [[rest' calls] sent].
  destruct (active c); cbn in *; [by constructor | done].
Qed.

Lemma send_frame_ret cpu now rets data size s :
  (ipdisp_network_send_frame cpu now rets data size s).1 =
    (frame_loop cpu now rets data size s).2.
Proof.
  destruct (decide (clients (idev s) = [])) as [E|E].
  - rewrite send_frame_empty by done. unfold frame_loop. by rewrite E.
  - by rewrite send_frame_nonempty.
Qed.

(** X4.  [ipdisp_network_send_frame] returns the number of entries that
    are active when it is done: never negative, never more than were active
    when it began, and 0 on an empty list. *)
Theorem X4_send_frame_returns_active_count cpu now rets data size s :
  let r := ipdisp_network_send_frame cpu now rets data size s in
  r.1 = client_count (clients (idev r.2)) /\
  0 <= r.1 <= client_count (clients (idev s)).
Proof.
  cbn zeta. rewrite send_frame_ret, send_frame_clients. unfold frame_loop.
  rewrite send_frame_loop_sent. split; [done|].
  split; [apply client_count_nonneg|].
  apply (registry_trans_no_resurrection false OpSendFrame); [|done].
  apply send_frame_loop_trans.
Qed.

(** X5.  A broadcast closes no connection and removes no entry: the list
    keeps its sockets and addresses in their order, no socket is released,
    nothing is logged, and the rest of the device (geometry, frame buffer,
    listening socket, work queue, streaming switch) is untouched.  It keeps
    the record of the earlier calls of [kernel_sendmsg] and adds to it one
    call per entry that was active, in list order, each to the socket of
    its entry with the whole message and the full length, and no other
    call. *)
Theorem X5_send_frame_changes_flags_only cpu now rets data size s :
  let s' := (ipdisp_network_send_frame cpu now rets data size s).2 in
  map sock (clients (idev s')) = map sock (clients (idev s)) /\
  map addr (clients (idev s')) = map addr (clients (idev s)) /\
  released (kern s') = released (kern s) /\
  klog (kern s') = klog (kern s) /\
  (width (idev s'), height (idev s'), framebuffer (idev s'), fb_size (idev s'),
   listen_sock (idev s'), stream_wq (idev s'), streaming_enabled (idev s')) =
  (width (idev s), height (idev s), framebuffer (idev s), fb_size (idev s),
   listen_sock (idev s), stream_wq (idev s), streaming_enabled (idev s)) /\
  (exists calls,
     wire (kern s') = wire (kern s) ++ calls /\
     map (fun call => (call_sock call, call_msg call, call_len call)) calls =
       map (fun c => (sock c, frame_message cpu (idev s) now data size,
                      frame_total size))
           (filter is_active (clients (idev s))) /\
     Z.of_nat (length calls) = client_count (clients (idev s))) /\
  Z.of_nat (length (wire (kern s'))) =
    Z.of_nat (length (wire (kern s))) + client_count (clients (idev s)).
Proof.
  cbn zeta.
  rewrite send_frame_clients, send_frame_released, send_frame_wire.
  destruct (send_frame_loop_same_peers rets
              (frame_message cpu (idev s) now data size) (frame_total size)
              0 (clients (idev s))) as [Hs Ha].
  split; [exact Hs|]. split; [exact Ha|]. split; [done|].
  split; [|split; [|split]].
  - destruct (decide (clients (idev s) = [])) as [E|E].
    + by rewrite send_frame_empty.
    + rewrite send_frame_nonempty by done. cbn zeta. cbn [snd].
      by destruct (_ =? 0).
  - destruct (decide (clients (idev s) = [])) as [E|E].
    + by rewrite send_frame_empty.
    + rewrite send_frame_nonempty by done. cbn zeta. cbn [snd].
      by destruct (_ =? 0).
  - eexists. split; [reflexivity|]. unfold frame_loop. split.
    + apply send_frame_loop_calls_to.
    + apply send_frame_loop_call_count.
  - rewrite length_app, Nat2Z.inj_add. unfold frame_loop.
    by rewrite send_frame_loop_call_count.
Qed.

Lemma frame_total_exact size :
  0 <= size < 2 ^ 64 - 36 -> frame_total size = 36 + size.
Proof.
  intros H. unfold frame_total, u64, PacketHeader.sizeof.
  apply Z.mod_small. lia.
Qed.

Lemma frame_size_field cpu w h now sz (payload : list Z) :
  PacketHeader.field 28 4
    (PacketHeader.image cpu (PacketHeader.frame cpu w h now sz) ++ payload)
  = u32 sz.
Proof.
  rewrite HeaderFacts.image_frame.
  set (M := be_bytes 4 IPDISP_MAGIC). set (V := be_bytes 4 IPDISP_VERSION).
  set (W := be_bytes 4 w). set (H := be_bytes 4 h).
  set (F := be_bytes 4 IPDISP_FORMAT_RGBA32). set (T := be_bytes 8 now).
  set (S := be_bytes 4 sz). set (R := be_bytes 4 0).
  replace ((M ++ V ++ W ++ H ++ F ++ T ++ S ++ R) ++ payload)
    with ((M ++ V ++ W ++ H ++ F ++ T) ++ S ++ (R ++ payload))
    by (by rewrite <- !app_assoc).
  rewrite (HeaderFacts.field_at _ S _ 28 4).
  - subst S. by rewrite be_value_be_bytes.
  - subst M V W H F T. by rewrite !length_app, !length_be_bytes.
  - apply length_be_bytes.
Qed.

(** X6.  When [data] holds at least [size] bytes (and the sum does not
    overflow [size_t]), every [kernel_sendmsg] call of a broadcast is
    framed: the requested length is 36 plus [size] and is the length of the
    message, whose first 36 bytes are the header and whose rest is the
    first [size] bytes of [data].  The header's size field is [size]
    reduced to 32 bits. *)
Theorem X6_frame_calls_well_framed cpu now rets data size s :
  0 <= size <= Z.of_nat (length data) ->
  size < 2 ^ 64 - 36 ->
  exists calls,
    wire (kern (ipdisp_network_send_frame cpu now rets data size s).2) =
      wire (kern s) ++ calls /\
    Forall (fun call =>
              call_len call = 36 + size /\
              Z.of_nat (length (call_msg call)) = call_len call /\
              take 36 (call_msg call) =
                PacketHeader.image cpu
                  (PacketHeader.frame cpu (width (idev s)) (height (idev s))
                     now size) /\
              drop 36 (call_msg call) = take (Z.to_nat size) data /\
              PacketHeader.field 28 4 (call_msg call) = u32 size)
           calls.
Proof.
  intros Hsize Hmax. eexists. split; [apply send_frame_wire|].
  unfold frame_loop.
  eapply Forall_impl; [apply send_frame_loop_calls_shape|].
  intros call [-> ->]. unfold frame_message.
  split; [apply frame_total_exact; lia|].
  split.
  { rewrite length_app, HeaderFacts.length_image, length_take.
    rewrite frame_total_exact by lia. lia. }
  split; [by rewrite take_app_length' by (by rewrite HeaderFacts.length_image)|].
  split; [by rewrite drop_app_length' by (by rewrite HeaderFacts.length_image)|].
  apply frame_size_field.
Qed.

Lemma X6_frame_calls_well_framed_witness :
  exists calls,
    wire (kern (ipdisp_network_send_frame LittleEndian 1000 (fun _ => 40)
                  [1; 2; 3; 4] 4 four_clients).2) =
      wire (kern four_clients) ++ calls /\
    Forall (fun call =>
              call_len call = 40 /\
              Z.of_nat (length (call_msg call)) = call_len call /\
              take 36 (call_msg call) =
                PacketHeader.image LittleEndian
                  (PacketHeader.frame LittleEndian 1920 1080 1000 4) /\
              drop 36 (call_msg call) = [1; 2; 3; 4] /\
              PacketHeader.field 28 4 (call_msg call) = 4)
           calls.
Proof.
  apply (X6_frame_calls_well_framed LittleEndian 1000 (fun _ => 40)
           [1; 2; 3; 4] 4 four_clients); cbn; lia.
Defined.

(** X7.  [ipdisp_network_cleanup] releases everything the network side
    holds: afterwards the client list is empty and there is no listening
    socket, and exactly the listening socket (when there was one) and the
    socket of every entry, active or not, have been released; nothing is
    sent.  A second call releases nothing more. *)
Theorem X7_shutdown_releases_everything s :
  let s' := ipdisp_network_cleanup s in
  clients (idev s') = [] /\
  listen_sock (idev s') = None /\
  released (kern s') =
    released (kern s)
    ++ match listen_sock (idev s) with Some l => [l] | None => [] end
    ++ held s /\
  wire (kern s') = wire (kern s) /\
  released (kern (ipdisp_network_cleanup s')) = released (kern s').
Proof.
  cbn zeta. unfold ipdisp_network_cleanup, held.
  destruct (listen_sock (idev s)) as [l|] eqn:E; cbn; rewrite ?E; cbn;
    rewrite ?app_nil_r, <- ?app_assoc; done.
Qed.

(** ** Geometry and the frame buffer *)

Lemma step_geometry o s s' :
  step o s s' ->
  width (idev s') = width (idev s) /\
  height (idev s') = height (idev s) /\
  fb_size (idev s') = fb_size (idev s).
Proof.
  destruct 1 as [sk a ok s|sk ret s|cpu' now ret c s|s
                |cpu' now rets data size s|s|s|fb s s' Hup|s].
  - unfold register_client. cbn [printk idev].
    destruct (_ >=? _); [done|]. by destruct (negb ok).
  - done.
  - by rewrite send_display_info_idev.
  - by rewrite cleanup_clients_eq.
  - destruct (decide (clients (idev s) = [])) as [E|E].
    + by rewrite send_frame_empty.
    + rewrite send_frame_nonempty by done. cbn zeta. cbn [snd].
      by destruct (_ =? 0).
  - unfold ipdisp_pipe_enable, queue_stream_work. cbn.
    by destruct (stream_wq (idev s)).
  - done.
  - unfold ipdisp_pipe_update, queue_stream_work in Hup.
    repeat match type of Hup with
           | context [match ?x with _ => _ end] => destruct x eqn:?
           end; simplify_eq; done.
  - unfold ipdisp_network_cleanup. by destruct (listen_sock (idev s)).
Qed.

Lemma reachable_geometry s : reachable s -> geometry_consistent s.
Proof.
  unfold geometry_consistent.
  induction 1 as [w h l|o s s' _ IH Hstep]; [done|].
  destruct (step_geometry _ _ _ Hstep) as (-> & -> & ->). exact IH.
Qed.

(** The size the encoder computes is the size the frame buffer was
    allocated with: the two products agree modulo [2 ^ 32]. *)
Lemma frame_size_fb_size s :
  geometry_consistent s -> frame_size (idev s) = fb_size (idev s).
Proof.
  unfold geometry_consistent, frame_size, u32. intros ->.
  rewrite !Z.mul_mod_idemp_l by lia. f_equal. ring.
Qed.

(** X8.  No operation of the running driver changes the geometry or the
    size of the frame buffer: after every step the width, the height and
    [fb_size] are the same, and the frame buffer is still there with
    [fb_size] bytes, [fb_size] being the size computed from the geometry at
    start-up. *)
Theorem X8_frame_buffer_never_resized o s s' :
  reachable s ->
  step o s s' ->
  width (idev s') = width (idev s) /\
  height (idev s') = height (idev s) /\
  fb_size (idev s') = fb_size (idev s) /\
  geometry_consistent s' /\
  exists buf, framebuffer (idev s') = Some buf /\
              Z.of_nat (length buf) = fb_size (idev s').
Proof.
  intros Hs Hstep.
  destruct (step_geometry _ _ _ Hstep) as (Hw & Hh & Hf).
  assert (Hs' : reachable s') by (by eapply reachable_step).
  repeat split; try done.
  - by apply reachable_geometry.
  - by apply reachable_fb_allocated.
Qed.

Lemma X8_frame_buffer_never_resized_witness :
  fb_size (idev (ipdisp_pipe_enable (init_state 2 3 100%nat))) = 24.
Proof.
  destruct (X8_frame_buffer_never_resized OpPipeEnable
              (init_state 2 3 100%nat)
              (ipdisp_pipe_enable (init_state 2 3 100%nat))
              (reachable_init 2 3 100%nat)
              (step_pipe_enable (init_state 2 3 100%nat)))
    as (_ & _ & Hf & _).
  exact Hf.
Defined.

Lemma stream_work_enabled cpu now rets s fb :
  framebuffer (idev s) = Some fb ->
  streaming_enabled (idev s) = true ->
  ipdisp_stream_work_func cpu now rets s =
    (ipdisp_network_send_frame cpu now rets fb (frame_size (idev s)) s).2.
Proof.
  intros Hfb Hon. unfold ipdisp_stream_work_func. by rewrite Hfb, Hon.
Qed.

(** X9.  In a reachable state with streaming on, the stream work
    broadcasts the whole frame buffer: the size it computes,
    [width * height * 4] in [u32], is [fb_size], the payload of the
    message is the frame buffer from its first to its last byte, and the
    header's size field is [fb_size]. *)
Theorem X9_stream_work_sends_whole_frame_buffer cpu now rets s :
  reachable s ->
  streaming_enabled (idev s) = true ->
  exists fb,
    framebuffer (idev s) = Some fb /\
    frame_size (idev s) = fb_size (idev s) /\
    ipdisp_stream_work_func cpu now rets s =
      (ipdisp_network_send_frame cpu now rets fb (fb_size (idev s)) s).2 /\
    frame_message cpu (idev s) now fb (fb_size (idev s)) =
      PacketHeader.image cpu
        (PacketHeader.frame cpu (width (idev s)) (height (idev s)) now
           (fb_size (idev s))) ++ fb /\
    PacketHeader.field 28 4
      (frame_message cpu (idev s) now fb (fb_size (idev s))) = fb_size (idev s).
Proof.
  intros Hs Hon.
  destruct (reachable_fb_allocated s Hs) as (fb & Hfb & Hlen).
  pose proof (frame_size_fb_size s (reachable_geometry s Hs)) as Hsz.
  exists fb. split; [done|]. split; [done|]. split; [|split].
  - rewrite <- Hsz. by apply stream_work_enabled.
  - unfold frame_message. f_equal. apply take_ge. lia.
  - unfold frame_message. rewrite frame_size_field.
    rewrite <- Hsz. unfold frame_size, u32.
    apply Z.mod_small, Z.mod_pos_bound. lia.
Qed.

Lemma X9_stream_work_sends_whole_frame_buffer_witness :
  exists fb,
    framebuffer (idev (ipdisp_pipe_enable (init_state 2 3 100%nat))) = Some fb /\
    frame_size (idev (ipdisp_pipe_enable (init_state 2 3 100%nat))) = 24.
Proof.
  destruct (X9_stream_work_sends_whole_frame_buffer LittleEndian 1000
              (fun _ => 60) (ipdisp_pipe_enable (init_state 2 3 100%nat)))
    as (fb & Hfb & Hsz & _).
  - eapply reachable_step; [apply reachable_init | apply step_pipe_enable].
  - reflexivity.
  - exists fb. split; [exact Hfb | exact Hsz].
Defined.

Lemma pipe_update_copies fb src dst s :
  streaming_enabled (idev s) = true ->
  vaddr fb = Some src ->
  fb_format fb = DRM_FORMAT_XRGB8888 \/ fb_format fb = DRM_FORMAT_ARGB8888 ->
  framebuffer (idev s) = Some dst ->
  Z.of_nat (length dst) = fb_size (idev s) ->
  supplied_size fb <= Z.of_nat (length src) ->
  ipdisp_pipe_update (Some fb) s =
    Some (queue_stream_work
            (with_framebuffer
               (Some (take (Z.to_nat (copy_size (idev s) fb)) src
                      ++ drop (Z.to_nat (copy_size (idev s) fb)) dst)) s)).
Proof.
  intros Hon Hsrc Hfmt Hdst Hlen Hsup.
  pose proof (supplied_size_bounds fb) as Hb.
  unfold ipdisp_pipe_update. rewrite Hon, Hsrc, Hdst. cbn [negb].
  assert (Hf : (fb_format fb =? DRM_FORMAT_XRGB8888)
               || (fb_format fb =? DRM_FORMAT_ARGB8888) = true).
  { destruct Hfmt as [-> | ->]; reflexivity. }
  rewrite Hf. rewrite memcpy_in_bounds; [done| |]; unfold copy_size; lia.
Qed.

(** X10.  Producer and dispatcher compose: in a reachable state with
    streaming on, after [ipdisp_pipe_update] from a plane of a supported
    format that supplies at least [fb_size] bytes, the frame buffer is the
    first [fb_size] bytes of the plane, and the next run of the stream work
    sends every active client the header followed by exactly those bytes. *)
Theorem X10_update_then_stream cpu now rets fb src s :
  reachable s ->
  streaming_enabled (idev s) = true ->
  vaddr fb = Some src ->
  fb_format fb = DRM_FORMAT_XRGB8888 \/ fb_format fb = DRM_FORMAT_ARGB8888 ->
  fb_size (idev s) <= supplied_size fb ->
  supplied_size fb <= Z.of_nat (length src) ->
  let pixels := take (Z.to_nat (fb_size (idev s))) src in
  exists s1,
    ipdisp_pipe_update (Some fb) s = Some s1 /\
    framebuffer (idev s1) = Some pixels /\
    forall j cj,
      clients (idev s) !! j = Some cj ->
      active cj = true ->
      {| call_sock := sock cj;
         call_msg :=
           PacketHeader.image cpu
             (PacketHeader.frame cpu (width (idev s)) (height (idev s)) now
                (fb_size (idev s))) ++ pixels;
         call_len := frame_total (fb_size (idev s));
         call_ret := rets j |}
        ∈ wire (kern (ipdisp_stream_work_func cpu now rets s1)).
Proof.
  intros Hs Hon Hsrc Hfmt Hfit Hsup. cbn zeta.
  destruct (reachable_fb_allocated s Hs) as (dst & Hdst & Hlen).
  pose proof (frame_size_fb_size s (reachable_geometry s Hs)) as Hsz.
  assert (Hn : copy_size (idev s) fb = fb_size (idev s))
    by (unfold copy_size; lia).
  eexists. split; [by eapply pipe_update_copies|].
  rewrite Hn.
  assert (Hdrop : drop (Z.to_nat (fb_size (idev s))) dst = []).
  { apply drop_ge. lia. }
  rewrite Hdrop, app_nil_r.
  set (pixels := take (Z.to_nat (fb_size (idev s))) src).
  set (s1 := queue_stream_work (with_framebuffer (Some pixels) s)).
  assert (Hd1 : idev s1 = idev (with_framebuffer (Some pixels) s)).
  { unfold s1, queue_stream_work. by destruct (stream_wq _). }
  split; [by rewrite Hd1|].
  intros j cj Hj Hact.
  rewrite (stream_work_enabled cpu now rets s1 pixels)
    by (by rewrite Hd1).
  rewrite send_frame_wire. apply elem_of_app. right.
  unfold frame_loop. rewrite Hd1.
  change (frame_size (idev (with_framebuffer (Some pixels) s)))
    with (frame_size (idev s)).
  change (clients (idev (with_framebuffer (Some pixels) s)))
    with (clients (idev s)).
  rewrite Hsz.
  assert (Hmsg :
    frame_message cpu (idev (with_framebuffer (Some pixels) s)) now pixels
      (fb_size (idev s)) =
    PacketHeader.image cpu
      (PacketHeader.frame cpu (width (idev s)) (height (idev s)) now
         (fb_size (idev s))) ++ pixels).
  { unfold frame_message. cbn [with_framebuffer idev width height].
    f_equal. apply take_ge. unfold pixels. rewrite length_take. lia. }
  rewrite Hmsg.
  apply (send_frame_loop_calls rets _ _ 0 (clients (idev s)) j cj Hj Hact).
Qed.

Lemma streaming_one_client_reachable : reachable streaming_one_client.
Proof.
  eapply reachable_step; [|apply step_pipe_enable].
  apply thread_iteration_reachable, reachable_init.
Qed.

Lemma X10_update_then_stream_witness :
  exists s1,
    ipdisp_pipe_update (Some full_fb) streaming_one_client = Some s1 /\
    framebuffer (idev s1) = Some (replicate 24 255).
Proof.
  destruct (X10_update_then_stream LittleEndian 2000 (fun _ => 60) full_fb
              (replicate 24 255) streaming_one_client
              streaming_one_client_reachable eq_refl eq_refl
              (or_intror eq_refl))
    as (s1 & Hup & Hfb & _).
  - vm_compute. discriminate.
  - vm_compute. discriminate.
  - exists s1. split; [exact Hup | exact Hfb].
Defined.

(** X11.  While streaming is off nothing moves: [ipdisp_pipe_update]
    copies nothing and queues nothing, [ipdisp_encoder_queue_frame] and
    [ipdisp_drm_update_frame] queue nothing, and the stream work sends
    nothing; each leaves the state as it is.  [ipdisp_pipe_disable] puts the
    device in that condition. *)
Theorem X11_nothing_moves_while_disabled cpu now rets fb s :
  streaming_enabled (idev s) = false ->
  ipdisp_pipe_update fb s = Some s /\
  ipdisp_encoder_queue_frame s = s /\
  ipdisp_drm_update_frame s = s /\
  ipdisp_stream_work_func cpu now rets s = s /\
  streaming_enabled (idev (ipdisp_pipe_disable s)) = false.
Proof.
  intros Hoff.
  unfold ipdisp_pipe_update, ipdisp_encoder_queue_frame,
    ipdisp_drm_update_frame, ipdisp_stream_work_func.
  rewrite Hoff. cbn [negb andb].
  repeat split; try done.
  - by destruct fb.
  - by destruct (framebuffer (idev s)).
Qed.

Lemma X11_nothing_moves_while_disabled_witness :
  ipdisp_pipe_update (Some small_fb) booted = Some booted /\
  ipdisp_stream_work_func LittleEndian 1000 (fun _ => 40) booted = booted.
Proof.
  destruct (X11_nothing_moves_while_disabled LittleEndian 1000 (fun _ => 40)
              (Some small_fb) booted eq_refl) as (Hup & _ & _ & Hw & _).
  split; [exact Hup | exact Hw].
Defined.

(** ** The connector *)

Lemma mode_valid_iff d mode :
  ipdisp_connector_mode_valid d mode = MODE_OK <->
  640 <= hdisplay mode <= 7680 /\ 480 <= vdisplay mode <= 4320.
Proof.
  unfold ipdisp_connector_mode_valid.
  destruct (Z.gtb_spec (hdisplay mode) 7680), (Z.gtb_spec (vdisplay mode) 4320),
    (Z.ltb_spec (hdisplay mode) 640), (Z.ltb_spec (vdisplay mode) 480);
    cbn [orb]; try (split; [discriminate | lia]).
  destruct (_ && _); (split; [intros _; lia | done]).
Qed.

(** X12.  [ipdisp_connector_mode_valid] accepts a mode exactly when it is
    between 640 x 480 and 7680 x 4320; the answer is the same for every
    device, whose configured resolution gets no special treatment. *)
Theorem X12_mode_valid_range d mode :
  (ipdisp_connector_mode_valid d mode = MODE_OK <->
   640 <= hdisplay mode <= 7680 /\ 480 <= vdisplay mode <= 4320) /\
  (ipdisp_connector_mode_valid d mode <> MODE_OK ->
   ipdisp_connector_mode_valid d mode = MODE_BAD) /\
  forall d', ipdisp_connector_mode_valid d' mode =
             ipdisp_connector_mode_valid d mode.
Proof.
  split; [apply mode_valid_iff|]. split.
  - by destruct (ipdisp_connector_mode_valid d mode).
  - intros d'.
    pose proof (mode_valid_iff d mode) as H.
    pose proof (mode_valid_iff d' mode) as H'.
    destruct (ipdisp_connector_mode_valid d mode),
             (ipdisp_connector_mode_valid d' mode); try done.
    + by destruct (proj1 H eq_refl); destruct (proj2 H').
    + by destruct (proj1 H' eq_refl); destruct (proj2 H).
Qed.

Lemma set_preferred_is_preferred m : is_preferred (set_preferred m) = true.
Proof.
  unfold is_preferred, set_preferred, DRM_MODE_TYPE_PREFERRED. cbn [mode_type].
  rewrite Z.land_lor_distr_l. change (Z.land 8 8) with 8.
  destruct (Z.eqb_spec (Z.lor (Z.land (mode_type m) 8) 8) 0) as [E|E]; [|done].
  apply Z.lor_eq_0_iff in E. lia.
Qed.

Lemma add_default_modes_count d ok i modes :
  (add_default_modes d ok i modes).2 =
    Z.of_nat (length (add_default_modes d ok i modes).1) /\
  (length (add_default_modes d ok i modes).1 <= length modes)%nat.
Proof.
  revert i; induction modes as [|m modes IH]; intros i; [done|].
  cbn [add_default_modes]. destruct (IH (S i)) as [IH1 IH2].
  destruct (add_default_modes d ok (S i) modes) as [probed count].
  destruct (ok i); cbn [fst snd length] in *; lia.
Qed.

(** X13.  [ipdisp_connector_get_modes] returns the number of modes it
    added, at most five.  When every allocation succeeds it adds the four
    default modes, and a fifth one for the configured resolution when that
    is not a default; exactly one of the modes added is marked preferred,
    and it is the one of the configured resolution when that is a
    default. *)
Theorem X13_get_modes_one_preferred d ok cvt :
  let r := ipdisp_connector_get_modes d ok cvt in
  r.1 = Z.of_nat (length r.2) /\
  r.1 <= 5 /\
  ((forall i, ok i = true) ->
   is_Some cvt ->
   length (filter (fun m => is_preferred m = true) r.2) = 1%nat /\
   r.1 = (if found_in d default_modes then 4 else 5) /\
   (found_in d default_modes = true ->
    forall m, m ∈ r.2 -> is_preferred m = true ->
              hdisplay m = width d /\ vdisplay m = height d)).
Proof.
  cbn zeta. unfold ipdisp_connector_get_modes.
  pose proof (add_default_modes_count d ok 0 default_modes) as [Hc Hl].
  change (length default_modes) with 4%nat in Hl.
  split; [|split].
  - destruct (add_default_modes d ok 0 default_modes) as [probed count].
    cbn [fst snd] in *. destruct (negb _); [|done].
    destruct cvt; [|done]. cbn [fst snd]. rewrite length_app. cbn. lia.
  - destruct (add_default_modes d ok 0 default_modes) as [probed count].
    cbn [fst snd] in *. destruct (negb _); [|cbn [fst]; lia].
    destruct cvt; cbn [fst snd]; lia.
  - intros Hok [m0 ->]. clear Hc Hl.
    pose proof (set_preferred_is_preferred m0) as Hm0.
    unfold default_modes. cbn [add_default_modes found_in].
    rewrite !Hok. unfold current_resolution. cbn [hdisplay vdisplay].
    destruct (Z.eqb_spec 1920 (width d)) as [Hw1|Hw1],
             (Z.eqb_spec 1080 (height d)) as [Hh1|Hh1],
             (Z.eqb_spec 1680 (width d)) as [Hw2|Hw2],
             (Z.eqb_spec 1050 (height d)) as [Hh2|Hh2],
             (Z.eqb_spec 1280 (width d)) as [Hw3|Hw3],
             (Z.eqb_spec 1024 (height d)) as [Hh3|Hh3],
             (Z.eqb_spec 1024 (width d)) as [Hw4|Hw4],
             (Z.eqb_spec 768 (height d)) as [Hh4|Hh4];
      try lia; cbn [andb negb fst snd app];
      (split; [| split; [reflexivity|]]);
      try (rewrite !filter_cons, ?filter_nil, ?Hm0; cbn; reflexivity);
      try discriminate.
    all: intros _ m Hm Hp;
      repeat (apply elem_of_cons in Hm as [->|Hm]);
      try (apply elem_of_nil in Hm; destruct Hm);
      cbn in Hp |- *; try discriminate; lia.
Qed.

Lemma X13_get_modes_one_preferred_witness :
  let r := ipdisp_connector_get_modes (idev booted) (fun _ => true)
             (Some {| hdisplay := 1920; vdisplay := 1080; mode_type := 0 |}) in
  length (filter (fun m => is_preferred m = true) r.2) = 1%nat /\ r.1 = 4.
Proof.
  cbn zeta.
  destruct (X13_get_modes_one_preferred (idev booted) (fun _ => true)
              (Some {| hdisplay := 1920; vdisplay := 1080; mode_type := 0 |}))
    as (_ & _ & H).
  destruct (H (fun _ => eq_refl) (ex_intro _ _ eq_refl)) as (H1 & H4 & _).
  split; [exact H1 | exact H4].
Defined.

(** ** Loading the module *)

Lemma ipdisp_init_zero w h port device_ret driver_ret p :
  (ipdisp_init w h port device_ret driver_ret p).1 = 0 <->
  params_ok w h port /\ device_ret = 0 /\ driver_ret = 0.
Proof.
  unfold ipdisp_init, params_ok, EINVAL.
  destruct (Z.ltb_spec w 640), (Z.gtb_spec w 7680); cbn [orb fst];
    try (split; [discriminate | lia]).
  destruct (Z.ltb_spec h 480), (Z.gtb_spec h 4320); cbn [orb fst];
    try (split; [discriminate | lia]).
  destruct (Z.ltb_spec port 1024), (Z.gtb_spec port 65535); cbn [orb fst];
    try (split; [discriminate | lia]).
  destruct (Z.eqb_spec device_ret 0); cbn [negb fst]; [|split; [done | lia]].
  destruct (Z.eqb_spec driver_ret 0); cbn [negb fst]; [|split; [done | lia]].
  split; [lia | done].
Qed.

(** X14.  [ipdisp_init] returns 0 exactly when the three parameters are
    within their ranges and both registrations succeed, and then the
    platform device and the platform driver are registered.  On every other
    path nothing is left registered: parameters out of range are refused
    with [-EINVAL] before anything is registered, and when the driver
    cannot be registered the device is unregistered again.  Unloading after
    a successful load leaves nothing registered either. *)
Theorem X14_module_init w h port device_ret driver_ret :
  let r := ipdisp_init w h port device_ret driver_ret unloaded in
  (r.1 = 0 <-> params_ok w h port /\ device_ret = 0 /\ driver_ret = 0) /\
  (r.1 = 0 ->
   device_registered r.2 = true /\ driver_registered r.2 = true) /\
  (r.1 <> 0 ->
   device_registered r.2 = false /\ driver_registered r.2 = false) /\
  (~ params_ok w h port -> r.1 = - EINVAL) /\
  (params_ok w h port -> device_ret <> 0 -> r.1 = device_ret) /\
  (params_ok w h port -> device_ret = 0 -> driver_ret <> 0 ->
   r.1 = driver_ret) /\
  device_registered (ipdisp_exit r.2) = false /\
  driver_registered (ipdisp_exit r.2) = false.
Proof.
  cbn zeta. split; [apply ipdisp_init_zero|].
  unfold ipdisp_init, params_ok, EINVAL.
  destruct (Z.ltb_spec w 640), (Z.gtb_spec w 7680); cbn [orb];
    try (repeat split; (done || lia)).
  destruct (Z.ltb_spec h 480), (Z.gtb_spec h 4320); cbn [orb];
    try (repeat split; (done || lia)).
  destruct (Z.ltb_spec port 1024), (Z.gtb_spec port 65535); cbn [orb];
    try (repeat split; (done || lia)).
  destruct (Z.eqb_spec device_ret 0); cbn [negb];
    [|repeat split; (done || lia)].
  destruct (Z.eqb_spec driver_ret 0); cbn [negb];
    repeat split; (done || lia).
Qed.

Lemma X14_module_init_witness :
  (ipdisp_init 1920 1080 8080 0 0 unloaded).1 = 0 /\
  (ipdisp_init 1920 1080 80 0 0 unloaded).1 = -22 /\
  device_registered (ipdisp_init 1920 1080 8080 0 (-16) unloaded).2 = false.
Proof.
  split; [|split].
  - apply (proj1 (X14_module_init 1920 1080 8080 0 0)).
    unfold params_ok. lia.
  - apply (proj1 (proj2 (proj2 (proj2 (X14_module_init 1920 1080 80 0 0))))).
    unfold params_ok. lia.
  - apply (proj1 (proj2 (proj2 (X14_module_init 1920 1080 8080 0 (-16))))).
    discriminate.
Defined.

(** X15.  For parameters [ipdisp_init] accepts, the 32-bit products of
    [ipdisp_device_init] and of the stream work do not wrap: the frame
    buffer holds exactly [width * height * 4] bytes, between 1228800 and
    132710400, the size the stream work sends is the same, the port fits
    the 16-bit field it is stored in, and the configured resolution is a
    mode [ipdisp_connector_mode_valid] accepts. *)
Theorem X15_accepted_parameters_do_not_overflow w h port device_ret driver_ret l :
  (ipdisp_init w h port device_ret driver_ret unloaded).1 = 0 ->
  let s := init_state w h l in
  fb_size (idev s) = w * h * 4 /\
  frame_size (idev s) = w * h * 4 /\
  1228800 <= fb_size (idev s) <= 132710400 /\
  port mod 2 ^ 16 = port /\
  ipdisp_connector_mode_valid (idev s)
    {| hdisplay := w; vdisplay := h; mode_type := DRM_MODE_TYPE_DRIVER |}
    = MODE_OK.
Proof.
  intros H0. apply ipdisp_init_zero in H0 as ((Hw & Hh & Hp) & _ & _).
  cbn zeta.
  assert (Hfb : fb_size (idev (init_state w h l)) = w * h * 4).
  { cbn. unfold u32. rewrite (Z.mod_small (w * 4)) by lia.
    rewrite Z.mod_small by nia. ring. }
  split; [exact Hfb|]. split; [|split; [|split]].
  - rewrite frame_size_fb_size; [exact Hfb | done].
  - rewrite Hfb. nia.
  - apply Z.mod_small. lia.
  - apply mode_valid_iff. cbn. lia.
Qed.

Lemma X15_accepted_parameters_do_not_overflow_witness :
  fb_size (idev booted) = 8294400 /\ frame_size (idev booted) = 8294400.
Proof.
  destruct (X15_accepted_parameters_do_not_overflow 1920 1080 8080 0 0 100%nat
              eq_refl) as (Hfb & Hfs & _).
  split; [exact Hfb | exact Hfs].
Defined.

(** ** Start-up and teardown *)

Lemma network_init_spec inp d :
  thread_error_negative inp ->
  network_down d ->
  let r := ipdisp_network_init inp d in
  (r.1 = 0 <-> network_init_succeeds inp) /\
  (r.1 = 0 ->
   listen_sock (idev (core r.2)) = Some (sock_create_sock inp) /\
   network_thread r.2 = ThreadRunning /\
   released (kern (core r.2)) = released (kern (core d))) /\
  (r.1 <> 0 ->
   listen_sock (idev (core r.2)) = None /\
   network_thread r.2 <> ThreadRunning /\
   released (kern (core r.2)) =
     released (kern (core d))
     ++ (if decide (0 <= sock_create_ret inp)
         then [sock_create_sock inp] else [])) /\
  (idev (with_listen_sock None (core r.2)), wire (kern (core r.2)),
   stream_work_queued (kern (core r.2)), klog (kern (core r.2))) =
  (idev (with_listen_sock None (core d)), wire (kern (core d)),
   stream_work_queued (kern (core d)), klog (kern (core d))) /\
  (port r.2, pitch r.2, mode_config r.2, connector_live r.2,
   dma_allocated r.2, dma_freed r.2, drm_registered r.2, global_dev r.2) =
  (port d, pitch d, mode_config d, connector_live d,
   dma_allocated d, dma_freed d, drm_registered d, global_dev d).
Proof.
  intros Herr [Hthr Hls]. cbn zeta.
  unfold ipdisp_network_init, network_init_succeeds.
  destruct (Z.ltb_spec (sock_create_ret inp) 0) as [Hc|Hc].
  { cbn. rewrite decide_False by lia.
    rewrite app_nil_r. repeat split; try done; try lia.
    by rewrite Hthr. }
  rewrite (decide_True (P := 0 <= sock_create_ret inp)) by done.
  assert (Hd1 : forall b : bool,
            core (if b then boot_printk (WarnReuseAddr (setsockopt_ret inp)) d
                  else d) = core d) by (by intros []).
  assert (Hn1 : forall b : bool,
            network_thread
              (if b then boot_printk (WarnReuseAddr (setsockopt_ret inp)) d
               else d) = network_thread d) by (by intros []).
  destruct (Z.ltb_spec (bind_ret inp) 0) as [Hb|Hb].
  { cbn.
    destruct (setsockopt_ret inp <? 0); cbn; rewrite Hthr, Hls;
      repeat split; try done; lia. }
  destruct (Z.ltb_spec (listen_ret inp) 0) as [Hl|Hl].
  { cbn.
    destruct (setsockopt_ret inp <? 0); cbn; rewrite Hthr, Hls;
      repeat split; try done; lia. }
  destruct (kthread_run_res inp) as [ret|] eqn:Ek.
  - pose proof (Herr ret Ek) as Hneg. cbn.
    destruct (setsockopt_ret inp <? 0); cbn;
      repeat split; try done; try lia;
      intros (_ & _ & _ & ?); discriminate.
  - cbn.
    destruct (setsockopt_ret inp <? 0); cbn;
      repeat split; try done; lia.
Qed.

(** X16.  [ipdisp_network_init] on a device whose network is down returns 0
    exactly when the socket is created, bound and listening and the thread
    is started; a failing [kernel_setsockopt] is only logged.  On success
    the device holds the listening socket and the running thread and
    nothing was released.  On failure it holds neither, and the socket, if
    one was created, has been released, once.  Nothing else of the device
    changes. *)
Theorem X16_network_init_all_or_nothing inp d :
  thread_error_negative inp ->
  network_down d ->
  let r := ipdisp_network_init inp d in
  (r.1 = 0 <-> network_init_succeeds inp) /\
  (r.1 = 0 ->
   listen_sock (idev (core r.2)) = Some (sock_create_sock inp) /\
   network_thread r.2 = ThreadRunning /\
   released (kern (core r.2)) = released (kern (core d))) /\
  (r.1 <> 0 ->
   listen_sock (idev (core r.2)) = None /\
   network_thread r.2 <> ThreadRunning /\
   released (kern (core r.2)) =
     released (kern (core d))
     ++ (if decide (0 <= sock_create_ret inp)
         then [sock_create_sock inp] else [])) /\
  (idev (with_listen_sock None (core r.2)), wire (kern (core r.2)),
   stream_work_queued (kern (core r.2)), klog (kern (core r.2))) =
  (idev (with_listen_sock None (core d)), wire (kern (core d)),
   stream_work_queued (kern (core d)), klog (kern (core d))) /\
  (port r.2, pitch r.2, mode_config r.2, connector_live r.2,
   dma_allocated r.2, dma_freed r.2, drm_registered r.2, global_dev r.2) =
  (port d, pitch d, mode_config d, connector_live d,
   dma_allocated d, dma_freed d, drm_registered d, global_dev d).
Proof. apply network_init_spec. Qed.

Lemma X16_network_init_all_or_nothing_witness :
  let inp := {| sock_create_ret := 0; sock_create_sock := 100%nat;
                setsockopt_ret := -92; bind_ret := -98; listen_ret := 0;
                kthread_run_res := KthreadStarted |} in
  (ipdisp_network_init inp zeroed).1 <> 0 /\
  released (kern (core (ipdisp_network_init inp zeroed).2)) = [100%nat].
Proof.
  cbn zeta.
  destruct (X16_network_init_all_or_nothing
              {| sock_create_ret := 0; sock_create_sock := 100%nat;
                 setsockopt_ret := -92; bind_ret := -98; listen_ret := 0;
                 kthread_run_res := KthreadStarted |} zeroed)
    as (_ & _ & Hfail & _).
  - intros ret H. discriminate H.
  - split; reflexivity.
  - split; [discriminate|].
    apply Hfail. discriminate.
Defined.

Lemma drm_init_spec inp d :
  let r := ipdisp_drm_init inp d in
  (r.1 = 0 <-> drm_init_succeeds inp) /\
  (r.1 = 0 ->
   connector_live r.2 = true /\
   mode_config r.2 = Some {| min_width := 640; max_width := 7680;
                             min_height := 480; max_height := 4320;
                             preferred_depth := 32 |}) /\
  (r.1 <> 0 -> connector_live d = false -> connector_live r.2 = false) /\
  (core r.2, port r.2, pitch r.2, network_thread r.2,
   dma_allocated r.2, dma_freed r.2, drm_registered r.2, global_dev r.2) =
  (core d, port d, pitch d, network_thread d,
   dma_allocated d, dma_freed d, drm_registered d, global_dev d).
Proof.
  cbn zeta. unfold ipdisp_drm_init, drm_init_succeeds.
  destruct (Z.eqb_spec (mode_config_ret inp) 0); cbn [negb];
    [|cbn; repeat split; try done; try lia; intros (? & _); done].
  destruct (Z.eqb_spec (connector_ret inp) 0); cbn [negb];
    [|cbn; repeat split; try done; try lia; intros (_ & ? & _); done].
  destruct (Z.eqb_spec (pipe_ret inp) 0); cbn [negb];
    [|cbn; repeat split; try done; try lia; intros (_ & _ & ? & _); done].
  destruct (Z.eqb_spec (vblank_ret inp) 0); cbn [negb];
    [|cbn; repeat split; try done; try lia; intros (_ & _ & _ & ?); done].
  cbn. repeat split; try done.
Qed.

(** X17.  [ipdisp_drm_init] returns 0 exactly when its four DRM calls
    return 0.  Then the connector is initialised and the mode limits it has
    set admit exactly the modes [ipdisp_connector_mode_valid] accepts and
    exactly the resolutions [ipdisp_init] accepts as parameters.  When it
    fails after initialising the connector, it has cleaned the connector
    up.  It touches nothing else. *)
Theorem X17_drm_init_limits inp d :
  let r := ipdisp_drm_init inp d in
  (r.1 = 0 <-> drm_init_succeeds inp) /\
  (r.1 <> 0 -> connector_live d = false -> connector_live r.2 = false) /\
  (r.1 = 0 ->
   connector_live r.2 = true /\
   exists lim,
     mode_config r.2 = Some lim /\
     (forall dev mode,
        ipdisp_connector_mode_valid dev mode = MODE_OK <->
        min_width lim <= hdisplay mode <= max_width lim /\
        min_height lim <= vdisplay mode <= max_height lim) /\
     (forall w h port,
        params_ok w h port <->
        (min_width lim <= w <= max_width lim /\
         min_height lim <= h <= max_height lim) /\
        1024 <= port <= 65535)) /\
  (core r.2, port r.2, pitch r.2, network_thread r.2,
   dma_allocated r.2, dma_freed r.2, drm_registered r.2, global_dev r.2) =
  (core d, port d, pitch d, network_thread d,
   dma_allocated d, dma_freed d, drm_registered d, global_dev d).
Proof.
  cbn zeta. destruct (drm_init_spec inp d) as (Hiff & Hok & Hfail & Hsame).
  split; [exact Hiff|]. split; [exact Hfail|]. split; [|exact Hsame].
  intros H0. destruct (Hok H0) as [Hc Hm]. split; [exact Hc|].
  eexists. split; [exact Hm|]. cbn. split.
  - intros dev mode. apply mode_valid_iff.
  - intros w h port. unfold params_ok. lia.
Qed.

Lemma X17_drm_init_limits_witness :
  connector_live
    (ipdisp_drm_init {| mode_config_ret := 0; connector_ret := 0;
                        pipe_ret := 0; vblank_ret := -12 |} zeroed).2 = false.
Proof.
  apply (proj1 (proj2 (X17_drm_init_limits
           {| mode_config_ret := 0; connector_ret := 0;
              pipe_ret := 0; vblank_ret := -12 |} zeroed)));
    [discriminate | reflexivity].
Defined.

(** Turn the tests the code makes into facts about the integers. *)
Ltac bool_facts :=
  repeat match goal with
         | H : (_ =? _) = true |- _ => apply Z.eqb_eq in H
         | H : (_ =? _) = false |- _ => apply Z.eqb_neq in H
         | H : (_ <? _) = true |- _ => apply Z.ltb_lt in H
         | H : (_ <? _) = false |- _ => apply Z.ltb_ge in H
         end.

(** Close one case of a start-up function: the goal is a conjunction of
    facts about the result, some of them under hypotheses that the case
    may contradict. *)
Ltac close_case :=
  repeat split; intros; bool_facts;
  repeat match goal with
         | H : _ /\ _ |- _ => destruct H
         end;
  try done; try lia; try congruence.

Lemma device_init_spec w h p inp d :
  thread_error_negative (net_inp inp) ->
  fresh d ->
  exists ret d',
    ipdisp_device_init w h p inp d = Some (ret, d') /\
    (ret = 0 <-> init_succeeds inp) /\
    (ret = 0 ->
     core d' = init_state w h (sock_create_sock (net_inp inp)) /\
     network_thread d' = ThreadRunning /\
     dma_allocated d' = S (dma_freed d') /\
     port d' = p mod 2 ^ 16 /\ pitch d' = u32 (w * 4)) /\
    (ret <> 0 ->
     torn_down d' /\
     released (kern (core d')) =
       (if decide (socket_created inp)
        then [sock_create_sock (net_inp inp)] else []) /\
     wire (kern (core d')) = []) /\
    drm_registered d' = false /\ global_dev d' = false.
Proof.
  intros Herr (Hcore & Hthr & Hdma & Hreg & Hglob).
  unfold ipdisp_device_init, init_succeeds, torn_down,
    drm_init_succeeds, network_init_succeeds.
  destruct (decide (socket_created inp)) as [Hsc|Hsc];
    unfold socket_created, drm_init_succeeds in Hsc.
  all: destruct (dma_alloc_ok inp) eqn:Edma; cbn [negb];
    [|eexists _, _; split; [reflexivity|]; cbn; rewrite ?Hcore, ?Hthr; cbn;
      unfold ENOMEM; close_case].
  all: unfold ipdisp_drm_init.
  all: destruct (mode_config_ret (drm_inp inp) =? 0) eqn:E1; cbn [negb];
    [|rewrite ?E1; cbn [negb]; eexists _, _; split; [reflexivity|]; cbn;
      rewrite ?Hcore, ?Hthr; cbn; close_case].
  all: destruct (connector_ret (drm_inp inp) =? 0) eqn:E2; cbn [negb];
    [|rewrite ?E2; cbn [negb]; eexists _, _; split; [reflexivity|]; cbn;
      rewrite ?Hcore, ?Hthr; cbn; close_case].
  all: destruct (pipe_ret (drm_inp inp) =? 0) eqn:E3; cbn [negb];
    [|rewrite ?E3; cbn [negb]; eexists _, _; split; [reflexivity|]; cbn;
      rewrite ?Hcore, ?Hthr; cbn; close_case].
  all: destruct (vblank_ret (drm_inp inp) =? 0) eqn:E4; cbn [negb];
    [|rewrite ?E4; cbn [negb]; eexists _, _; split; [reflexivity|]; cbn;
      rewrite ?Hcore, ?Hthr; cbn; close_case].
  all: cbn [Z.eqb negb]; unfold ipdisp_network_init.
  all: destruct (sock_create_ret (net_inp inp) <? 0) eqn:Ec;
    [destruct (sock_create_ret (net_inp inp) =? 0) eqn:Ec0;
     [exfalso; bool_facts; lia|]; cbn [negb];
     eexists _, _; (split; [reflexivity|]); cbn; rewrite ?Hcore, ?Hthr; cbn;
     close_case|].
  all: destruct (setsockopt_ret (net_inp inp) <? 0) eqn:Eo.
  all: destruct (bind_ret (net_inp inp) <? 0) eqn:Eb;
    [destruct (bind_ret (net_inp inp) =? 0) eqn:Eb0;
     [exfalso; bool_facts; lia|]; cbn [negb];
     eexists _, _; (split; [reflexivity|]); cbn; rewrite ?Hcore, ?Hthr; cbn;
     close_case|].
  all: destruct (listen_ret (net_inp inp) <? 0) eqn:El;
    [destruct (listen_ret (net_inp inp) =? 0) eqn:El0;
     [exfalso; bool_facts; lia|]; cbn [negb];
     eexists _, _; (split; [reflexivity|]); cbn; rewrite ?Hcore, ?Hthr; cbn;
     close_case|].
  all: destruct (kthread_run_res (net_inp inp)) as [ret|] eqn:Ek;
    [pose proof (Herr ret Ek) as Hneg;
     destruct (ret =? 0) eqn:Er0;
     [exfalso; bool_facts; lia|]; cbn [negb];
     eexists _, _; (split; [reflexivity|]); cbn; rewrite ?Hcore, ?Hthr; cbn;
     close_case|].
  all: cbn [Z.eqb negb]; unfold ipdisp_encoder_init.
  all: destruct (wq_alloc_ok inp) eqn:Ewq; cbn [negb];
    eexists _, _; (split; [reflexivity|]); cbn; rewrite ?Hcore, ?Hthr; cbn;
    unfold ENOMEM; close_case.
Qed.

(** X18.  [ipdisp_device_init] on a freshly allocated device returns 0
    exactly when the frame buffer, the DRM side, the network and the work
    queue all come up.  Then the device is in the initial state of the
    running system: geometry set, frame buffer of [fb_size] zero bytes,
    empty client list, listening socket, thread running, streaming off.  On
    every failure it has undone what it did: no thread runs, the listening
    socket, if one was created, is released and forgotten, the work queue
    is gone and the frame buffer is freed as often as it was allocated;
    [kthread_stop] is never called on an error pointer. *)
Theorem X18_device_init_all_or_nothing w h p inp d :
  thread_error_negative (net_inp inp) ->
  fresh d ->
  exists ret d',
    ipdisp_device_init w h p inp d = Some (ret, d') /\
    (ret = 0 <-> init_succeeds inp) /\
    (ret = 0 ->
     core d' = init_state w h (sock_create_sock (net_inp inp)) /\
     network_thread d' = ThreadRunning /\
     dma_allocated d' = S (dma_freed d') /\
     port d' = p mod 2 ^ 16 /\ pitch d' = u32 (w * 4)) /\
    (ret <> 0 ->
     torn_down d' /\
     released (kern (core d')) =
       (if decide (socket_created inp)
        then [sock_create_sock (net_inp inp)] else []) /\
     wire (kern (core d')) = []) /\
    drm_registered d' = false /\ global_dev d' = false.
Proof. apply device_init_spec. Qed.

Lemma X18_device_init_all_or_nothing_witness :
  exists ret d',
    ipdisp_device_init 1920 1080 8080 no_workqueue zeroed = Some (ret, d') /\
    (ret <> 0 ->
     torn_down d' /\
     released (kern (core d')) = [100%nat] /\
     wire (kern (core d')) = []).
Proof.
  destruct (X18_device_init_all_or_nothing 1920 1080 8080 no_workqueue zeroed)
    as (ret & d' & E & _ & _ & Hfail & _).
  - intros r H. discriminate H.
  - repeat split.
  - exists ret, d'. split; [exact E | exact Hfail].
Defined.

Lemma device_cleanup_spec d :
  (forall ret, network_thread d <> ThreadErr ret) ->
  exists d',
    ipdisp_device_cleanup d = Some d' /\
    network_thread d' = ThreadNull /\
    listen_sock (idev (core d')) = None /\
    clients (idev (core d')) = [] /\
    stream_wq (idev (core d')) = false /\
    streaming_enabled (idev (core d')) = false /\
    released (kern (core d')) =
      released (kern (core d))
      ++ match listen_sock (idev (core d)) with Some l => [l] | None => [] end
      ++ held (core d) /\
    wire (kern (core d')) = wire (kern (core d)) /\
    dma_allocated d' = dma_allocated d /\
    dma_freed d' =
      (match framebuffer (idev (core d)) with
       | Some _ => S (dma_freed d) | None => dma_freed d end) /\
    drm_registered d' = drm_registered d /\ global_dev d' = global_dev d.
Proof.
  intros Hthr.
  unfold ipdisp_device_cleanup, ipdisp_encoder_cleanup,
    ipdisp_network_cleanup_driver, ipdisp_drm_cleanup, held.
  unfold ipdisp_network_cleanup.
  destruct (network_thread d) as [|ret|] eqn:Et;
    [|by destruct (Hthr ret)|];
    destruct (stream_wq (idev (core d))) eqn:Ew,
             (listen_sock (idev (core d))) as [l|] eqn:El,
             (framebuffer (idev (core d))) as [buf|] eqn:Ef;
    repeat (cbn; rewrite ?Et, ?Ew, ?El, ?Ef);
    eexists; (split; [reflexivity|]);
    repeat split; repeat (cbn; rewrite ?Et, ?Ew, ?El, ?Ef);
    rewrite ?app_nil_r, <- ?app_assoc; done.
Qed.

(** X19.  [ipdisp_probe] returns 0 exactly when the device is allocated,
    [ipdisp_device_init] succeeds and the DRM device is registered; the
    device is then in the initial state of the running system, registered.
    Every failing probe leaves nothing behind: no running thread, no
    listening socket, no client, no work queue, the frame buffer freed as
    often as allocated, the DRM device not registered; the socket created on
    the way, if any, is released exactly once, also when the failure is the
    registration, after everything was up. *)
Theorem X19_probe_all_or_nothing w h p inp :
  thread_error_negative (net_inp (dev_init_inp inp)) ->
  exists ret d',
    ipdisp_probe w h p inp = Some (ret, d') /\
    (ret = 0 <->
     dev_alloc_ret inp = 0 /\ init_succeeds (dev_init_inp inp) /\
     drm_register_ret inp = 0) /\
    (ret = 0 ->
     core d' = init_state w h (sock_create_sock (net_inp (dev_init_inp inp))) /\
     network_thread d' = ThreadRunning /\
     dma_allocated d' = S (dma_freed d') /\
     drm_registered d' = true /\ global_dev d' = true) /\
    (ret <> 0 ->
     torn_down d' /\
     drm_registered d' = false /\ global_dev d' = false /\
     wire (kern (core d')) = [] /\
     released (kern (core d')) =
       (if decide (dev_alloc_ret inp = 0 /\ socket_created (dev_init_inp inp))
        then [sock_create_sock (net_inp (dev_init_inp inp))] else [])).
Proof.
  intros Herr. unfold ipdisp_probe.
  destruct (Z.eqb_spec (dev_alloc_ret inp) 0) as [Ea|Ea]; cbn [negb].
  2:{ eexists _, _. split; [reflexivity|].
      rewrite decide_False by (by intros [? _]).
      unfold torn_down. cbn. close_case. }
  destruct (device_init_spec w h p (dev_init_inp inp)
              (boot_printk InfoProbing zeroed) Herr)
    as (ret & d1 & E & Hiff & Hok & Hfail & Hreg & Hglob); [by repeat split|].
  rewrite E.
  destruct (Z.eqb_spec ret 0) as [Er|Er]; cbn [negb].
  2:{ eexists _, _. split; [reflexivity|].
      destruct (Hfail Er) as (Htd & Hrel & Hw).
      split; [split; [done | intros (_ & Hs & _); by destruct Er; apply Hiff]|].
      split; [done|]. intros _. cbn.
      split; [exact Htd|]. split; [exact Hreg|]. split; [exact Hglob|].
      split; [exact Hw|]. rewrite Hrel.
      destruct (decide (socket_created (dev_init_inp inp))) as [Hs|Hs].
      - by rewrite decide_True.
      - rewrite decide_False; [done | by intros [_ ?]]. }
  destruct (Hok Er) as (Hcore & Hthr & Hdma & _).
  assert (Hsucc : init_succeeds (dev_init_inp inp)) by (by apply Hiff).
  assert (Hsock : socket_created (dev_init_inp inp)).
  { destruct Hsucc as (? & ? & (? & _) & _).
    unfold socket_created. split; [done | split; done]. }
  destruct (Z.eqb_spec (drm_register_ret inp) 0) as [Eg|Eg]; cbn [negb].
  - eexists _, _. split; [reflexivity|]. cbn.
    split; [split; [intros _; split; [done | split; done] | done]|].
    split; [intros _; by repeat split | by intros ?].
  - destruct (device_cleanup_spec
                (boot_printk (ErrRegisterDrm (drm_register_ret inp)) d1))
      as (d2 & E2 & Ht2 & Hl2 & Hc2 & Hq2 & Hs2 & Hr2 & Hw2 & Ha2 & Hf2
          & Hg2 & Hgl2).
    { intros r. cbn. rewrite Hthr. discriminate. }
    rewrite E2. eexists _, _. split; [reflexivity|].
    cbn in Hr2, Hw2, Ha2, Hf2, Hg2, Hgl2. rewrite Hcore in Hr2, Hw2, Hf2.
    cbn in Hr2, Hw2, Hf2.
    split; [split; [done | by intros (_ & _ & ?)]|].
    split; [done|]. intros _.
    split; [unfold torn_down; repeat split; try done; try congruence; lia|].
    split; [congruence|]. split; [congruence|]. split; [done|].
    by rewrite decide_True.
Qed.

Lemma X19_probe_all_or_nothing_witness :
  exists ret d',
    ipdisp_probe 1920 1080 8080 registration_fails = Some (ret, d') /\
    (ret <> 0 ->
     torn_down d' /\ drm_registered d' = false /\ global_dev d' = false /\
     wire (kern (core d')) = [] /\
     released (kern (core d')) = [100%nat]).
Proof.
  destruct (X19_probe_all_or_nothing 1920 1080 8080 registration_fails)
    as (ret & d' & E & _ & _ & Hfail).
  - intros r H. discriminate H.
  - exists ret, d'. split; [exact E | exact Hfail].
Defined.

(** X20.  [ipdisp_remove] on the running driver, in whatever state the
    clients have brought it, stops the thread and releases everything: the
    listening socket and the socket of every client, active or not, each
    once; the work queue is destroyed, streaming is off, the one frame
    buffer is freed once, and the DRM device is unregistered.  Nothing is
    sent, and [kthread_stop] gets a running thread. *)
Theorem X20_remove_releases_everything d :
  reachable (core d) ->
  network_thread d = ThreadRunning ->
  dma_allocated d = S (dma_freed d) ->
  exists d',
    ipdisp_remove d = Some d' /\
    torn_down d' /\
    drm_registered d' = false /\ global_dev d' = false /\
    released (kern (core d')) =
      released (kern (core d))
      ++ match listen_sock (idev (core d)) with Some l => [l] | None => [] end
      ++ held (core d) /\
    wire (kern (core d')) = wire (kern (core d)).
Proof.
  intros Hreach Hthr Hdma.
  destruct (reachable_fb_allocated _ Hreach) as (buf & Hbuf & _).
  unfold ipdisp_remove.
  destruct (device_cleanup_spec
              (with_drm_registered false (boot_printk InfoRemoving d)))
    as (d1 & E & Ht & Hl & Hc & Hq & Hs & Hr & Hw & Ha & Hf & Hg & Hgl).
  { intros r. cbn. rewrite Hthr. discriminate. }
  rewrite E. eexists. split; [reflexivity|].
  cbn in Hr, Hw, Ha, Hf, Hg. rewrite Hbuf in Hf.
  unfold torn_down. cbn.
  repeat split; try done; try congruence.
Qed.

Lemma X20_remove_releases_everything_witness :
  exists d',
    ipdisp_remove running_four = Some d' /\
    torn_down d' /\
    released (kern (core d')) = [100; 1; 2; 3; 4]%nat.
Proof.
  destruct (X20_remove_releases_everything running_four
              four_clients_reachable eq_refl eq_refl)
    as (d' & E & Htd & _ & _ & Hr & _).
  exists d'. split; [exact E|]. split; [exact Htd | exact Hr].
Defined.

(** ** Inactive clients wait for the next connection *)

Lemma send_frame_loop_all_inactive rets msg total i (cl : list ipdisp_client) :
  Forall is_inactive cl ->
  send_frame_loop rets msg total i cl = (cl, [], 0).
Proof.
  intros Hcl. revert i. induction Hcl as [|c cl Hc _ IH]; intros i; [done|].
  cbn [send_frame_loop]. rewrite IH. unfold is_inactive in Hc. by rewrite Hc.
Qed.

Lemma kernel_sendmsg_nil s :
  kernel_sendmsg [] (with_clients (clients (idev s)) s) = s.
Proof.
  rewrite (state_eta s) at 3. unfold kernel_sendmsg, with_clients. cbn.
  by rewrite app_nil_r.
Qed.

Lemma stream_work_all_inactive cpu now rets s :
  streaming_enabled (idev s) = true ->
  is_Some (framebuffer (idev s)) ->
  clients (idev s) <> [] ->
  Forall is_inactive (clients (idev s)) ->
  ipdisp_stream_work_func cpu now rets s = schedule_work s.
Proof.
  intros Hon [fb Hfb] Hne Hcl.
  rewrite (stream_work_enabled cpu now rets s fb Hfb Hon).
  rewrite send_frame_nonempty by done. cbn zeta. unfold frame_loop.
  rewrite send_frame_loop_all_inactive by done. cbn.
  by rewrite kernel_sendmsg_nil.
Qed.

(** X21.  Nothing in the dispatcher removes a client.  When the list is
    not empty and every entry is inactive, a run of the stream work sends
    nothing, releases nothing, leaves the list as it is and queues itself
    again; any number of runs later the state is the same but for the count
    of queued runs.  The entries go away only when the accept loop registers
    a new connection or the driver shuts down. *)
Theorem X21_dead_clients_requeue_forever cpu s
    (runs : list (Z * (nat -> Z))) :
  streaming_enabled (idev s) = true ->
  is_Some (framebuffer (idev s)) ->
  clients (idev s) <> [] ->
  Forall is_inactive (clients (idev s)) ->
  let s' := foldl (fun t r => ipdisp_stream_work_func cpu r.1 r.2 t) s runs in
  s' = Nat.iter (length runs) schedule_work s /\
  idev s' = idev s /\
  wire (kern s') = wire (kern s) /\
  released (kern s') = released (kern s) /\
  stream_work_queued (kern s') = (stream_work_queued (kern s) + length runs)%nat.
Proof.
  intros Hon Hfb Hne Hcl. cbn zeta.
  assert (Hiter : forall n,
            idev (Nat.iter n schedule_work s) = idev s /\
            wire (kern (Nat.iter n schedule_work s)) = wire (kern s) /\
            released (kern (Nat.iter n schedule_work s)) = released (kern s) /\
            stream_work_queued (kern (Nat.iter n schedule_work s)) =
              (stream_work_queued (kern s) + n)%nat).
  { induction n as [|n (IH1 & IH2 & IH3 & IH4)];
      [cbn; repeat split; lia|].
    change (Nat.iter (S n) schedule_work s)
      with (schedule_work (Nat.iter n schedule_work s)).
    remember (Nat.iter n schedule_work s) as t eqn:Et. cbn.
    rewrite IH1, IH2, IH3, IH4. repeat split; lia. }
  assert (Hrun : foldl (fun t r => ipdisp_stream_work_func cpu r.1 r.2 t) s runs
                 = Nat.iter (length runs) schedule_work s).
  { induction runs as [|r runs IH] using rev_ind; [done|].
    rewrite foldl_app, length_app, Nat.add_comm. cbn [foldl length Nat.add].
    rewrite IH.
    change (Nat.iter (S (length runs)) schedule_work s)
      with (schedule_work (Nat.iter (length runs) schedule_work s)).
    destruct (Hiter (length runs)) as (Hd & _).
    apply stream_work_all_inactive; by rewrite Hd. }
  rewrite Hrun. split; [done|]. apply Hiter.
Qed.

Lemma X21_dead_clients_requeue_forever_witness :
  let s' := foldl (fun t r => ipdisp_stream_work_func LittleEndian r.1 r.2 t)
              one_dead_client [(1000, fun _ => 60); (2000, fun _ => 60)] in
  idev s' = idev one_dead_client /\
  wire (kern s') = [] /\
  stream_work_queued (kern s') = 3%nat.
Proof.
  cbn zeta.
  destruct (X21_dead_clients_requeue_forever LittleEndian one_dead_client
              [(1000, fun _ => 60); (2000, fun _ => 60)])
    as (_ & Hd & Hw & _ & Hq).
  - reflexivity.
  - by eexists.
  - discriminate.
  - repeat constructor.
  - split; [exact Hd|]. split; [exact Hw | exact Hq].
Defined.

(** X22.  An iteration of the accept loop that registers a connection
    does three things, whatever the greeting send returns: it appends the
    new entry, active, at the tail; it sends the greeting to the new socket
    and to no other; and it removes every entry that was inactive, releasing
    its socket.  The entries that were active stay, in their order. *)
Theorem X22_registration_cleans_up cpu inp s l sk a :
  listen_sock (idev s) = Some l ->
  accept_res inp = Accepted sk ->
  peername_res inp = PeerName a ->
  kzalloc_ok inp = true ->
  client_count (clients (idev s)) < IPDISP_MAX_CLIENTS ->
  let s' := ipdisp_network_thread_iteration cpu inp s in
  clients (idev s') =
    filter is_active (clients (idev s))
    ++ [{| sock := sk; addr := a; active := true |}] /\
  released (kern s') =
    released (kern s) ++ map sock (filter is_inactive (clients (idev s))) /\
  (exists greeting,
     wire (kern s') = wire (kern s) ++ [greeting] /\
     call_sock greeting = sk /\ call_ret greeting = greeting_ret inp) /\
  Forall is_active (clients (idev s')) /\
  client_count (clients (idev s')) = client_count (clients (idev s)) + 1.
Proof.
  intros Hl Hacc Hpeer Hok Hroom. cbn zeta.
  unfold ipdisp_network_thread_iteration. rewrite Hl, Hacc, Hpeer, Hok.
  rewrite register_client_room by exact Hroom. cbn [snd].
  rewrite cleanup_clients_eq, send_display_info_idev.
  cbn [sock_release_all kern idev with_clients clients released wire].
  rewrite send_display_info_released, send_display_info_wire.
  cbn [printk kern released wire idev with_clients clients sock].
  rewrite !filter_app.
  rewrite (filter_cons_True is_active) by done.
  rewrite (filter_cons_False is_inactive) by done.
  rewrite !filter_nil, app_nil_r.
  split; [done|]. split; [done|]. split; [by eexists|]. split.
  - apply Forall_app. split; [apply filter_active_all_active|].
    by repeat constructor.
  - rewrite client_count_app, client_count_filter_active. cbn. lia.
Qed.

Lemma X22_registration_cleans_up_witness :
  let s := (ipdisp_network_send_frame LittleEndian 1000 (fun _ => -32)
              [1; 2; 3; 4] 4 one_client).2 in
  let s' := ipdisp_network_thread_iteration LittleEndian
              (connection 2%nat 36) s in
  clients (idev s') = [{| sock := 2%nat; addr := peer 2; active := true |}] /\
  released (kern s') = [1%nat].
Proof.
  cbn zeta.
  destruct (X22_registration_cleans_up LittleEndian (connection 2%nat 36)
              (ipdisp_network_send_frame LittleEndian 1000 (fun _ => -32)
                 [1; 2; 3; 4] 4 one_client).2
              100%nat 2%nat (peer 2) eq_refl eq_refl eq_refl eq_refl)
    as (Hc & Hr & _).
  - reflexivity.
  - split; [exact Hc | exact Hr].
Defined.

Lemma X12_mode_valid_range_witness :
  ipdisp_connector_mode_valid (idev booted)
    {| hdisplay := 3840; vdisplay := 2160; mode_type := DRM_MODE_TYPE_DRIVER |}
  = MODE_OK.
Proof.
  apply (proj2 (proj1 (X12_mode_valid_range (idev booted)
           {| hdisplay := 3840; vdisplay := 2160;
              mode_type := DRM_MODE_TYPE_DRIVER |}))).
  cbn. lia.
Defined.
